(** * Leaf wetness model: a shallow embedding of [awn_leaf_wetness.py]

    The estimator [estimate_leaf_wetness] takes a pandas DataFrame of weather
    observations and a dictionary of constants, adds some thirty derived
    columns to the frame in place and returns six of the columns as a list
    of records.

    The embedding follows the source statement by statement:
    - a Python float (and a numpy float64) is an IEEE 754 binary64 number,
      modelled by the Standard Library's [spec_float] with the operations
      [SFadd], [SFmul], ... at precision 53 and maximal exponent 1024;
    - the transcendental functions the program calls ([np.exp], [np.log] and
      the power operator) are not fixed by IEEE 754; they are a parameter
      [Libm] of the model, and every theorem holds for every such library
      unless it says which results of the library it relies on;
    - a DataFrame is a number of rows and a finite map from column names to
      columns; the function threads the frame through its statements, and an
      exception leaves the frame as it was when it was raised;
    - Python's scalar division and power raise exceptions where numpy's array
      operations return infinities and NaN: both are modelled. *)

From Stdlib Require Import ZArith Floats Lia.
From stdpp Require Import gmap strings list.

Set Warnings "-inexact-float,-level-0-notation-not-closed".
Set Default Proof Using "Type".

(** ** Binary64 arithmetic *)

Module F64.

Definition t : Type := spec_float.

Definition prec : Z := 53.
Definition emax : Z := 1024.

Definition add : t -> t -> t := SFadd prec emax.
Definition sub : t -> t -> t := SFsub prec emax.
Definition mul : t -> t -> t := SFmul prec emax.
Definition div : t -> t -> t := SFdiv prec emax.
Definition sqrt : t -> t := SFsqrt prec emax.
Definition opp : t -> t := SFopp.

Definition ltb : t -> t -> bool := SFltb.
Definition leb : t -> t -> bool := SFleb.
Definition eqb : t -> t -> bool := SFeqb.
(** Python's [x > y] and [x >= y]. *)
Definition gtb (x y : t) : bool := SFltb y x.
Definition geb (x y : t) : bool := SFleb y x.

Definition zero : t := S754_zero false.
Definition nan : t := S754_nan.
Definition inf : t := S754_infinity false.
Definition neg_inf : t := S754_infinity true.

Definition is_nan (x : t) : bool :=
  match x with S754_nan => true | _ => false end.

Definition is_inf (x : t) : bool :=
  match x with S754_infinity _ => true | _ => false end.

(** [math.isfinite]: neither NaN nor an infinity. *)
Definition is_finite (x : t) : bool :=
  match x with
  | S754_zero _ | S754_finite _ _ _ => true
  | S754_infinity _ | S754_nan => false
  end.

Definition is_zero (x : t) : bool :=
  match x with S754_zero _ => true | _ => false end.

(** The sign bit; NaN has none in this model. *)
Definition signbit (x : t) : bool :=
  match x with
  | S754_zero s | S754_infinity s | S754_finite s _ _ => s
  | S754_nan => false
  end.

(** The value is one a binary64 register can hold. *)
Definition valid (x : t) : bool := SpecFloat.valid_binary prec emax x.

(** An integer as a float (exact below 2^53, rounded to nearest above). *)
Definition of_Z (z : Z) : t := SpecFloat.binary_normalize prec emax z 0 false.

Definition succ : t -> t := SFsucc prec emax.
Definition pred : t -> t := SFpred prec emax.

(** The same bits (unlike [eqb], which has [-0.0 == 0.0] and [nan != nan]). *)
Definition same (x y : t) : bool :=
  match x, y with
  | S754_zero a, S754_zero b => Bool.eqb a b
  | S754_infinity a, S754_infinity b => Bool.eqb a b
  | S754_nan, S754_nan => true
  | S754_finite s m e, S754_finite s' m' e' =>
      Bool.eqb s s' && Pos.eqb m m' && Z.eqb e e'
  | _, _ => false
  end.

End F64.

(** A decimal literal of the source, rounded to the nearest binary64 number
    as Python's parser does. *)
Notation "'f64' x" :=
  (ltac:(let v := eval vm_compute in (Prim2SF x%float) in exact v))
  (at level 0, x at level 0, only parsing).

#[global] Arguments F64.add : simpl never.
#[global] Arguments F64.sub : simpl never.
#[global] Arguments F64.mul : simpl never.
#[global] Arguments F64.div : simpl never.
#[global] Arguments F64.ltb : simpl never.
#[global] Arguments F64.gtb : simpl never.
#[global] Arguments F64.leb : simpl never.
#[global] Arguments F64.geb : simpl never.
#[global] Arguments F64.eqb : simpl never.

Declare Scope f64_scope.
Delimit Scope f64_scope with F.
Bind Scope f64_scope with F64.t.
Infix "+" := F64.add : f64_scope.
Infix "-" := F64.sub : f64_scope.
Infix "*" := F64.mul : f64_scope.
Infix "/" := F64.div : f64_scope.
Infix "<?" := F64.ltb : f64_scope.
Infix "<=?" := F64.leb : f64_scope.
Infix ">?" := F64.gtb : f64_scope.
Infix ">=?" := F64.geb : f64_scope.
Infix "=?" := F64.eqb : f64_scope.

(** ** The mathematical library

    [np.exp], [np.log] and the C function [pow] behind Python's and numpy's
    [**]. Their results are not determined by IEEE 754 (they differ between
    platforms by a unit in the last place), so the model takes them as a
    parameter. *)

Record Libm : Type := {
  libm_exp : F64.t -> F64.t;
  libm_log : F64.t -> F64.t;
  libm_pow : F64.t -> F64.t -> F64.t
}.

(** [np.pi], the binary64 number nearest to pi. *)
Definition np_pi : F64.t := f64 3.141592653589793.

(** ** Exceptions and Python's scalar operations *)

Inductive exn : Type :=
| KeyError (key : string)
| ZeroDivisionError
| OverflowError.

#[global] Instance exn_eq_dec : EqDecision exn.
Proof. solve_decision. Defined.

(** A result or an exception. *)
#[global] Instance exn_ret : MRet (sum exn) := fun A (a : A) => inr a.
#[global] Instance exn_bind : MBind (sum exn) := fun A B (f : A -> exn + B) c =>
  match c with inl x => inl x | inr a => f a end.

(** [x / y] on Python floats: [float_div] raises on a zero divisor. *)
Definition py_div (x y : F64.t) : exn + F64.t :=
  if F64.is_zero y then inl ZeroDivisionError else inr (x / y)%F.

(** [x ** k] for a Python float [x] and an int literal [k] (the source has
    [2] and [-2]), after CPython's [float_pow]: the special cases are decided
    before the library is called, and an infinite result of the library is
    reported as [OverflowError]. *)
Definition py_pow_int (m : Libm) (x : F64.t) (k : Z) : exn + F64.t :=
  if (k =? 0)%Z then inr (f64 1)
  else match x with
  | S754_nan => inr x
  | S754_infinity s =>
      if (0 <? k)%Z
      then inr (if Z.odd k then x else F64.inf)
      else inr (if Z.odd k then S754_zero s else F64.zero)
  | S754_zero s =>
      if (k <? 0)%Z then inl ZeroDivisionError
      else inr (if Z.odd k then x else F64.zero)
  | S754_finite s mx ex =>
      let ax := S754_finite false mx ex in
      let negate := s && Z.odd k in
      if (ax =? f64 1)%F then inr (if negate then f64 (-1) else f64 1)
      else
        let r := libm_pow m ax (F64.of_Z k) in
        if F64.is_inf r then inl OverflowError
        else inr (if negate then F64.opp r else r)
  end.

(** ** The constants

    The dictionary [config] of the source, as a record: every key the
    estimator reads is a field. The integers of the source ([200], [150],
    [196232004], ...) are exactly representable and enter float arithmetic at
    their first use, so they are stored as floats. *)

Module Cfg.
Record t : Type := {
  Z_reference : F64.t;
  Zc : F64.t;
  alpha : F64.t;
  LAI : F64.t;
  Wmax : F64.t;
  Wf : F64.t;
  shape_scale_film_cf : F64.t;
  shape_scale_drop_cd : F64.t;
  dimension_of_leaf_m : F64.t;
  width_of_leaf_m : F64.t;
  n : F64.t;
  mean_length_of_pore_l : F64.t;
  diameter_of_pore_d : F64.t;
  critical_DPD : F64.t;
  psychr_constant_mbar : F64.t;
  density_of_air_g_cm3 : F64.t;
  specific_heat_of_air_Jg_C : F64.t;
  latent_heat_of_vaporization_J_g : F64.t;
  kinematic_viscosity_of_air : F64.t;
  emissivity : F64.t;
  stefan_boltzmann_constant : F64.t;
  density_of_air_kg_m3 : F64.t;
  specific_heat_of_air_J_kg_K : F64.t;
  diffusion_coefficient_of_water_vapor_D : F64.t;
  latent_heat_of_condensation_J_kg : F64.t;
  psychrometer_constant_Pa_K : F64.t
}.
End Cfg.

(** The module-level [config] of the source. *)
Definition config : Cfg.t := {|
  Cfg.Z_reference := f64 200;
  Cfg.Zc := f64 150;
  Cfg.alpha := f64 1.3;
  Cfg.LAI := f64 2.88;
  Cfg.Wmax := f64 0.5;
  Cfg.Wf := f64 0.3;
  Cfg.shape_scale_film_cf := f64 1.78577026808484;
  Cfg.shape_scale_drop_cd := f64 4.23057517532205;
  Cfg.dimension_of_leaf_m := f64 0.126563029533657;
  Cfg.width_of_leaf_m := f64 0.12;
  Cfg.n := f64 196232004;
  Cfg.mean_length_of_pore_l := f64 0.000025;
  Cfg.diameter_of_pore_d := f64 0.00000623;
  Cfg.critical_DPD := f64 1.845;
  Cfg.psychr_constant_mbar := f64 0.670680828;
  Cfg.density_of_air_g_cm3 := f64 0.001225;
  Cfg.specific_heat_of_air_Jg_C := f64 1.012;
  Cfg.latent_heat_of_vaporization_J_g := f64 2450;
  Cfg.kinematic_viscosity_of_air := f64 0.0000156;
  Cfg.emissivity := f64 0.99;
  Cfg.stefan_boltzmann_constant := f64 5.67037E-08;
  Cfg.density_of_air_kg_m3 := f64 1.293;
  Cfg.specific_heat_of_air_J_kg_K := f64 1005;
  Cfg.diffusion_coefficient_of_water_vapor_D := f64 0.0000212;
  Cfg.latent_heat_of_condensation_J_kg := f64 2257000;
  Cfg.psychrometer_constant_Pa_K := f64 0.245670633
|}.

(** ** Data frames *)

Abbreviation Series := (list F64.t).

(** A frame has [nrows] rows (its index) and named columns; in a frame pandas
    built, every column has [nrows] entries ([frame_wf]). *)
Record DataFrame : Type := {
  nrows : nat;
  columns : gmap string Series
}.

Definition frame_wf (df : DataFrame) : Prop :=
  forall k c, columns df !! k = Some c -> length c = nrows df.

(** [data[k] = v] *)
Definition setcol (k : string) (v : Series) (df : DataFrame) : DataFrame :=
  {| nrows := nrows df; columns := <[k := v]> (columns df) |}.

(** *** Expressions over a frame

    The right-hand side of an assignment reads columns and combines them
    element by element; reading a column the frame lacks raises [KeyError]. *)

Definition E (A : Type) : Type := DataFrame -> exn + A.

Definition e_map {A B} (f : A -> B) (a : E A) : E B :=
  fun df => match a df with inl x => inl x | inr u => inr (f u) end.

(** Operands are evaluated left to right. *)
Definition e_map2 {A B C} (f : A -> B -> C) (a : E A) (b : E B) : E C :=
  fun df =>
    match a df with
    | inl x => inl x
    | inr u => match b df with inl x => inl x | inr v => inr (f u v) end
    end.

(** [data[k]] *)
Definition data (k : string) : E Series :=
  fun df =>
    match columns df !! k with
    | Some c => inr c
    | None => inl (KeyError k)
    end.

(** Series op Series, Series op scalar, scalar op Series. *)
Definition vv (f : F64.t -> F64.t -> F64.t) (a b : E Series) : E Series :=
  e_map2 (zip_with f) a b.
Definition vs (f : F64.t -> F64.t -> F64.t) (a : E Series) (c : F64.t) : E Series :=
  e_map (fmap (fun x => f x c)) a.
Definition sv (f : F64.t -> F64.t -> F64.t) (c : F64.t) (a : E Series) : E Series :=
  e_map (fmap (f c)) a.

(** [np.exp(a)], [a ** c], [a < c], [a > c] *)
Definition np_exp (m : Libm) (a : E Series) : E Series :=
  e_map (fmap (libm_exp m)) a.
Definition np_power (m : Libm) (a : E Series) (c : F64.t) : E Series :=
  vs (libm_pow m) a c.
Definition lt_s (a : E Series) (c : F64.t) : E (list bool) :=
  e_map (fmap (fun x => x <? c)%F) a.
Definition gt_s (a : E Series) (c : F64.t) : E (list bool) :=
  e_map (fmap (fun x => x >? c)%F) a.

(** [np.where(cond, a, c)] with a Series and a scalar, and with two scalars. *)
Definition np_where (cond : E (list bool)) (a : E Series) (c : F64.t) : E Series :=
  e_map2 (zip_with (fun (b : bool) x => if b then x else c)) cond a.
Definition np_where_const (cond : E (list bool)) (c1 c2 : F64.t) : E Series :=
  e_map (fmap (fun b : bool => if b then c1 else c2)) cond.

(** [a.apply(f)] on a Series. *)
Definition series_apply (f : F64.t -> F64.t) (a : E Series) : E Series :=
  e_map (fmap f) a.

(** [data.apply(f, axis=1)]: [f] is called on every row in turn; [row[k]]
    raises [KeyError] for a column the frame lacks. *)
Definition Row : Type := string -> exn + F64.t.

Definition row_at (df : DataFrame) (i : nat) : Row :=
  fun k =>
    match columns df !! k ≫= (fun c => c !! i) with
    | Some x => inr x
    | None => inl (KeyError k)
    end.

Fixpoint for_each {A B} (f : A -> exn + B) (l : list A) : exn + list B :=
  match l with
  | [] => inr []
  | a :: l' =>
      match f a with
      | inl x => inl x
      | inr b => match for_each f l' with inl x => inl x | inr bs => inr (b :: bs) end
      end
  end.

Definition frame_apply (f : Row -> exn + F64.t) : E Series :=
  fun df => for_each (fun i => f (row_at df i)) (seq 0 (nrows df)).

(** *** Statements

    A statement takes the frame to a new frame and a result or an exception. *)

Definition M (A : Type) : Type := DataFrame -> DataFrame * (exn + A).

#[global] Instance M_ret : MRet M := fun A (a : A) df => (df, inr a).
#[global] Instance M_bind : MBind M := fun A B (f : A -> M B) (c : M A) df =>
  match c df with
  | (df', inl x) => (df', inl x)
  | (df', inr a) => f a df'
  end.

(** A Python scalar computation, which may raise. *)
Definition py {A} (r : exn + A) : M A := fun df => (df, r).

(** [data[k] = e] *)
Definition assign (k : string) (e : E Series) : M unit :=
  fun df =>
    match e df with
    | inl x => (df, inl x)
    | inr v => (setcol k v df, inr tt)
    end.

(** The published record of one row. *)
Module Out.
Record t : Type := {
  AIR_TEMP_F : F64.t;
  DEWPOINT_F : F64.t;
  WIND_SPEED_2M_MPH : F64.t;
  RELATIVE_HUMIDITY : F64.t;
  Potential_condensation_of_dew_mm : F64.t;
  Estimated_Leaf_Wetness_mm : F64.t
}.
End Out.

(** [data[[k1, ..., k6]].to_dict(orient="records")] *)
Definition to_dict_records (k1 k2 k3 k4 k5 k6 : string) : M (list Out.t) :=
  fun df =>
    (df,
     c1 ← data k1 df; c2 ← data k2 df; c3 ← data k3 df;
     c4 ← data k4 df; c5 ← data k5 df; c6 ← data k6 df;
     mret (zip_with (fun f x => f x) (zip_with (fun f x => f x)
            (zip_with (fun f x => f x) (zip_with (fun f x => f x)
              (zip_with Out.Build_t c1 c2) c3) c4) c5) c6)).

Declare Scope series_scope.
Delimit Scope series_scope with S.
Notation "a .+. b" := (vv F64.add a b) (at level 50, left associativity) : series_scope.
Notation "a .-. b" := (vv F64.sub a b) (at level 50, left associativity) : series_scope.
Notation "a .*. b" := (vv F64.mul a b) (at level 40, left associativity) : series_scope.
Notation "a ./. b" := (vv F64.div a b) (at level 40, left associativity) : series_scope.
Notation "a .+ c" := (vs F64.add a c) (at level 50, left associativity) : series_scope.
Notation "a .- c" := (vs F64.sub a c) (at level 50, left associativity) : series_scope.
Notation "a .* c" := (vs F64.mul a c) (at level 40, left associativity) : series_scope.
Notation "a ./ c" := (vs F64.div a c) (at level 40, left associativity) : series_scope.
Notation "c #* a" := (sv F64.mul c a) (at level 40, left associativity) : series_scope.
Notation "c #/ a" := (sv F64.div c a) (at level 40, left associativity) : series_scope.
Notation "a .< c" := (lt_s a c) (at level 70, no associativity) : series_scope.
Notation "a .> c" := (gt_s a c) (at level 70, no associativity) : series_scope.
Notation "'data[' k ']' '::=' e" := (assign k e%S) (at level 90, e at level 89).

(** ** The estimator

    [estimate_leaf_wetness(data, config)], statement by statement. The
    scalars of the statement that computes [Uc] are bound just before it:
    the column [Uz] it reads first was assigned by the statement before, so
    the order in which they are evaluated cannot be observed. *)

Definition estimate_leaf_wetness (m : Libm) (config : Cfg.t) : M (list Out.t) :=
  let Zc := Cfg.Zc config in
  let Z_reference := Cfg.Z_reference config in
  let alpha := Cfg.alpha config in
  let Wmax := Cfg.Wmax config in
  let Wf := Cfg.Wf config in
  let shape_scale_film_cf := Cfg.shape_scale_film_cf config in
  let shape_scale_drop_cd := Cfg.shape_scale_drop_cd config in
  let dimension_of_leaf_m := Cfg.dimension_of_leaf_m config in
  let width_of_leaf_m := Cfg.width_of_leaf_m config in
  let n := Cfg.n config in
  let mean_length_of_pore_l := Cfg.mean_length_of_pore_l config in
  let diameter_of_pore_d := Cfg.diameter_of_pore_d config in
  let critical_DPD := Cfg.critical_DPD config in
  let latent_heat_of_vaporization_J_g := Cfg.latent_heat_of_vaporization_J_g config in
  let kinematic_viscosity_of_air := Cfg.kinematic_viscosity_of_air config in
  let emissivity := Cfg.emissivity config in
  let stefan_boltzmann_constant := Cfg.stefan_boltzmann_constant config in
  let density_of_air_kg_m3 := Cfg.density_of_air_kg_m3 config in
  let specific_heat_of_air_J_kg_K := Cfg.specific_heat_of_air_J_kg_K config in
  let diffusion_coefficient_of_water_vapor_D :=
    Cfg.diffusion_coefficient_of_water_vapor_D config in
  let latent_heat_of_condensation_J_kg := Cfg.latent_heat_of_condensation_J_kg config in

  let Zo := (Z_reference * f64 0.1)%F in
  let D := (f64 0.66 * Zc)%F in
  let W := (Wmax * Wf)%F in
  let c := ((Wmax * shape_scale_film_cf) + ((f64 1 - Wmax) * shape_scale_drop_cd))%F in
  let Surface_Area := (width_of_leaf_m * dimension_of_leaf_m)%F in
  d_sq ← py (py_pow_int m diameter_of_pore_d 2);
  rS ← py (py_div
             (f64 4 * (mean_length_of_pore_l + (np_pi * diameter_of_pore_d) / f64 8))%F
             (np_pi * n * d_sq * diffusion_coefficient_of_water_vapor_D)%F);

  data["AIR_TEMP_C"] ::= (data "AIR_TEMP_F" .- f64 32) .* f64 5 ./ f64 9;;
  data["DEWPOINT_C"] ::= (data "DEWPOINT_F" .- f64 32) .* f64 5 ./ f64 9;;
  data["DPD"] ::= data "AIR_TEMP_C" .-. data "DEWPOINT_C";;

  data["SVP"] ::=
    f64 0.6108 #* np_exp m ((f64 17.27 #* data "AIR_TEMP_C") ./. (data "AIR_TEMP_C" .+ f64 237.3));;

  data["Slope_kPa"] ::=
    (f64 4098 #* data "SVP") ./. np_power m (data "AIR_TEMP_C" .+ f64 237.3) (f64 2);;
  data["Slope_mbar"] ::= data "Slope_kPa" .* f64 10;;

  data["AVP"] ::= data "SVP" .*. (data "RELATIVE_HUMIDITY_%" ./ f64 100);;

  data["Uz"] ::= f64 2682.4 #* data "WIND_SPEED_2M_MPH";;

  q_c ← py (py_div (Zc - D)%F Zo);
  q_ref ← py (py_div (Z_reference - D)%F Zo);
  q_a ← py (py_div (f64 1 - Zc)%F Z_reference);
  corr ← py (py_pow_int m (f64 1 + alpha * q_a)%F (-2));
  data["Uc"] ::= data "Uz" .* (libm_log m q_c / libm_log m q_ref)%F .* corr;;

  data["Transfer_Coefficient (cm min^-1)"] ::= c #* np_power m (data "Uc") (f64 0.5);;

  data["Ep"] ::=
    (data "Slope_mbar"
       ./. (latent_heat_of_vaporization_J_g
              #* (data "Slope_mbar" .+ Cfg.psychr_constant_mbar config)))
    .*. ((Cfg.density_of_air_g_cm3 config * Cfg.specific_heat_of_air_Jg_C config)%F
           #* (data "Transfer_Coefficient (cm min^-1)" ./. data "Slope_mbar"))
    .*. ((data "SVP" .-. data "AVP") .* f64 10);;

  data["E (cm/min)"] ::= data "Ep" .* W;;

  data["Wind Speed (m/s)"] ::=
    series_apply (fun x => if (x >? f64 0)%F then (f64 0.44704 * x)%F else f64 0.001)
      (data "WIND_SPEED_2M_MPH");;

  data["Reynolds Number"] ::=
    (data "Wind Speed (m/s)" .* dimension_of_leaf_m) ./ kinematic_viscosity_of_air;;

  data["Nusselt Number"] ::= f64 0.72 #* np_power m (data "Reynolds Number") (f64 0.6);;

  data["rB (s/m)"] ::= dimension_of_leaf_m #/ (f64 0.0000215 #* data "Nusselt Number");;

  data["hLW"] ::=
    (f64 4 * emissivity * stefan_boltzmann_constant)%F
      #* np_power m (data "AIR_TEMP_C" .+ f64 273.15) (f64 3);;

  data["hH"] ::= (density_of_air_kg_m3 * specific_heat_of_air_J_kg_K)%F #/ data "rB (s/m)";;

  data["Slope_Pa_K"] ::= (data "Slope_kPa" .* f64 1000) ./ f64 273;;

  data["hET"] ::=
    (density_of_air_kg_m3 * specific_heat_of_air_J_kg_K)%F
      #* (data "Slope_Pa_K"
            ./. (Cfg.psychrometer_constant_Pa_K config #* (data "rB (s/m)" .+ rS)));;

  data["Leaf Heat Transfer Coefficient (W/m^2/K)"] ::=
    data "hLW" .+. data "hH" .+. data "hET";;

  data["Rhe (J/s)"] ::=
    data "Leaf Heat Transfer Coefficient (W/m^2/K)" .* Surface_Area
      .*. (data "AIR_TEMP_C" .-. data "DEWPOINT_C");;

  data["Potential condensation of dew (g/s)"] ::=
    (data "Rhe (J/s)" ./ latent_heat_of_condensation_J_kg) .* f64 1000;;
  data["Potential condensation of dew (mm)"] ::=
    (data "Potential condensation of dew (g/s)" ./ (Surface_Area * f64 10000)%F)
      .* f64 10 .* f64 60 .* f64 15 .* f64 2;;

  data["Potential condensation of dew (mm)"] ::=
    np_where (data "DPD" .< critical_DPD)
      (data "Potential condensation of dew (mm)") (f64 0);;

  data["Rain Interception (mm)"] ::=
    np_where_const (data "PRECIP_INCHES" .> f64 0) (f64 0.6) (f64 0);;

  data["Evaporation (mm)"] ::= data "E (cm/min)" .* f64 10 .* f64 15;;

  data["Estimated Leaf Wetness (mm)"] ::=
    frame_apply (fun row =>
      t ← row "AIR_TEMP_F";
      if (t >? f64 32)%F
      then
        pc ← row "Potential condensation of dew (mm)";
        ri ← row "Rain Interception (mm)";
        ev ← row "Evaporation (mm)";
        mret ((pc + ri) - ev)%F
      else mret (f64 0));;

  data["Estimated Leaf Wetness (mm)"] ::=
    np_where (data "Estimated Leaf Wetness (mm)" .> f64 0)
      (data "Estimated Leaf Wetness (mm)") (f64 0);;

  to_dict_records "AIR_TEMP_F" "DEWPOINT_F" "WIND_SPEED_2M_MPH" "RELATIVE_HUMIDITY_%"
    "Potential condensation of dew (mm)" "Estimated Leaf Wetness (mm)".

(** ** A reference mathematical library

    One inhabitant of [Libm], computed in fixed-point integer arithmetic with
    [frac] fractional bits and rounded once to binary64. It makes the model
    executable; the theorems below do not depend on it except where they say
    so. The special cases follow C99 annex F. *)

Module RefLibm.

Local Open Scope Z_scope.

Definition frac : Z := 160.

Definition fx_mul (a b : Z) : Z := Z.shiftr (a * b) frac.
Definition fx_div (a b : Z) : Z := Z.shiftl a frac / b.
Definition fx_of_Z (z : Z) : Z := Z.shiftl z frac.

(** [m * 2^e] as a fixed-point number (truncated). *)
Definition fx_of_float (mx : positive) (ex : Z) : Z := Z.shiftl (Z.pos mx) (ex + frac).

(** The fixed-point number [v * 2^e], rounded to the nearest binary64. *)
Definition fx_round (v e : Z) : F64.t :=
  SpecFloat.binary_normalize F64.prec F64.emax v (e - frac) false.

(** [atanh s = s + s^3/3 + s^5/5 + ...], for [|s| <= 1/3]. *)
Fixpoint atanh_series (fuel : nat) (term s2 k acc : Z) : Z :=
  match fuel with
  | O => acc
  | S fuel' => atanh_series fuel' (fx_mul term s2) s2 (k + 2) (acc + term / k)
  end.

Definition fx_atanh (s : Z) : Z := atanh_series 80 s (fx_mul s s) 1 0.

(** [ln 2 = 2 atanh (1/3)] *)
Definition fx_ln2 : Z := Eval vm_compute in 2 * fx_atanh (fx_div (fx_of_Z 1) (fx_of_Z 3)).

Definition fx_sqrt2 : Z := Eval vm_compute in Z.sqrt (Z.shiftl 2 (2 * frac)).

(** [exp r = 1 + r + r^2/2! + ...], for [0 <= r < ln 2]. *)
Fixpoint exp_series (fuel : nat) (term r k acc : Z) : Z :=
  match fuel with
  | O => acc
  | S fuel' => exp_series fuel' (fx_mul term r / k) r (k + 1) (acc + term)
  end.

(** [exp x] for a fixed-point [x] with [|x| < 2^12], as a mantissa in
    [[1, 2)] and a binary exponent. *)
Definition fx_exp (x : Z) : Z * Z :=
  let k := x / fx_ln2 in
  let r := x - k * fx_ln2 in
  (exp_series 70 (fx_of_Z 1) r 1 0, k).

(** [ln (m * 2^e)] as a fixed-point number. *)
Definition fx_log (mx : positive) (ex : Z) : Z :=
  let d := Z.pos (SpecFloat.digits2_pos mx) in
  let y := Z.shiftl (Z.pos mx) (frac - (d - 1)) in
  let '(y, e) := if (fx_sqrt2 <? y)%Z then (y / 2, ex + d) else (y, ex + d - 1) in
  let s := fx_div (y - fx_of_Z 1) (y + fx_of_Z 1) in
  e * fx_ln2 + 2 * fx_atanh s.

(** [exp] of a fixed-point number, rounded; far out of range it overflows
    or underflows whatever the digits. *)
Definition exp_of_fx (x : Z) : F64.t :=
  if (fx_of_Z 2048 <? x)%Z then F64.inf
  else if (x <? fx_of_Z (-2048))%Z then F64.zero
  else let '(v, k) := fx_exp x in fx_round v k.

Definition exp (x : F64.t) : F64.t :=
  match x with
  | S754_nan => S754_nan
  | S754_zero _ => f64 1
  | S754_infinity false => F64.inf
  | S754_infinity true => F64.zero
  | S754_finite s mx ex =>
      if (12 <? Z.pos (SpecFloat.digits2_pos mx) + ex)%Z
      then (if s then F64.zero else F64.inf)
      else exp_of_fx (SpecFloat.cond_Zopp s (fx_of_float mx ex))
  end.

Definition log (x : F64.t) : F64.t :=
  match x with
  | S754_nan => S754_nan
  | S754_zero _ => F64.neg_inf
  | S754_infinity false => F64.inf
  | S754_infinity true => S754_nan
  | S754_finite true _ _ => S754_nan
  | S754_finite false mx ex => fx_round (fx_log mx ex) 0
  end.

(** Whether a finite float is an integer, and an odd one. *)
Definition is_int (mx : positive) (ex : Z) : bool :=
  (0 <=? ex)%Z || (Z.pos mx mod 2 ^ (- ex) =? 0)%Z.
Definition is_odd_int (mx : positive) (ex : Z) : bool :=
  if (0 <? ex)%Z then false
  else (Z.pos mx mod 2 ^ (- ex) =? 0)%Z && Z.odd (Z.pos mx / 2 ^ (- ex)).

(** [x ** y] for finite [x > 0] and finite nonzero [y]. *)
Definition pow_pos (mx : positive) (ex : Z) (sy : bool) (my : positive) (ey : Z) : F64.t :=
  let l := fx_log mx ex in
  if (l =? 0)%Z then f64 1
  else if (12 <? Z.pos (SpecFloat.digits2_pos my) + ey + Z.log2 (Z.abs l) - frac)%Z
  then (if xorb sy (l <? 0)%Z then F64.zero else F64.inf)
  else exp_of_fx (SpecFloat.cond_Zopp sy (Z.shiftl (l * Z.pos my) ey)).

Definition pow (x y : F64.t) : F64.t :=
  match y, x with
  | S754_zero _, _ => f64 1
  | S754_nan, _ => if (x =? f64 1)%F then f64 1 else S754_nan
  | _, S754_nan => S754_nan
  | S754_infinity sy, _ =>
      let ax := SFabs x in
      if (ax =? f64 1)%F then f64 1
      else if xorb sy (ax <? f64 1)%F then F64.zero else F64.inf
  | S754_finite sy my ey, S754_zero sx =>
      let odd := is_odd_int my ey in
      if sy then S754_infinity (sx && odd) else S754_zero (sx && odd)
  | S754_finite sy my ey, S754_infinity sx =>
      let odd := is_odd_int my ey in
      if sy then S754_zero (sx && odd) else S754_infinity (sx && odd)
  | S754_finite sy my ey, S754_finite false mx ex => pow_pos mx ex sy my ey
  | S754_finite sy my ey, S754_finite true mx ex =>
      if is_int my ey
      then (if is_odd_int my ey then F64.opp (pow_pos mx ex sy my ey)
            else pow_pos mx ex sy my ey)
      else S754_nan
  end.

Definition libm : Libm := {| libm_exp := exp; libm_log := log; libm_pow := pow |}.

End RefLibm.

(** ** The table a frame holds

    The five raw fields of one input row, and the rows of a frame: row [i]
    takes entry [i] of each raw column. *)

Module Raw.
Record t : Type := {
  AIR_TEMP_F : F64.t;
  DEWPOINT_F : F64.t;
  RELATIVE_HUMIDITY : F64.t;
  WIND_SPEED_2M_MPH : F64.t;
  PRECIP_INCHES : F64.t
}.
End Raw.

Definition cell (df : DataFrame) (k : string) (i : nat) : F64.t :=
  default F64.nan (columns df !! k ≫= (fun c => c !! i)).

Definition raw_row (df : DataFrame) (i : nat) : Raw.t := {|
  Raw.AIR_TEMP_F := cell df "AIR_TEMP_F" i;
  Raw.DEWPOINT_F := cell df "DEWPOINT_F" i;
  Raw.RELATIVE_HUMIDITY := cell df "RELATIVE_HUMIDITY_%" i;
  Raw.WIND_SPEED_2M_MPH := cell df "WIND_SPEED_2M_MPH" i;
  Raw.PRECIP_INCHES := cell df "PRECIP_INCHES" i
|}.

Definition raw_table (df : DataFrame) : list Raw.t :=
  raw_row df <$> seq 0 (nrows df).

(** The names of the raw columns, in the order the estimator first reads them. *)
Definition raw_names : list string :=
  ["AIR_TEMP_F"; "DEWPOINT_F"; "RELATIVE_HUMIDITY_%"; "WIND_SPEED_2M_MPH"; "PRECIP_INCHES"].

Definition has_raw_columns (df : DataFrame) : Prop :=
  Forall (fun k => is_Some (columns df !! k)) raw_names.

(** ** The scalars of a call

    What the estimator computes from the constants alone, in the order of
    the source; this is where a degenerate [config] raises. *)

Record Scalars : Type := {
  d_sq : F64.t;
  rS : F64.t;
  q_c : F64.t;
  q_ref : F64.t;
  q_a : F64.t;
  corr : F64.t
}.

Definition Zo (config : Cfg.t) : F64.t := (Cfg.Z_reference config * f64 0.1)%F.
Definition D (config : Cfg.t) : F64.t := (f64 0.66 * Cfg.Zc config)%F.
Definition W (config : Cfg.t) : F64.t := (Cfg.Wmax config * Cfg.Wf config)%F.
Definition c (config : Cfg.t) : F64.t :=
  ((Cfg.Wmax config * Cfg.shape_scale_film_cf config)
   + ((f64 1 - Cfg.Wmax config) * Cfg.shape_scale_drop_cd config))%F.
Definition Surface_Area (config : Cfg.t) : F64.t :=
  (Cfg.width_of_leaf_m config * Cfg.dimension_of_leaf_m config)%F.

(** The scalars of the stomatal resistance (computed before any column is
    read) and of the wind profile (computed with the column [Uc]). *)
Definition scalars_pore (m : Libm) (config : Cfg.t) : exn + (F64.t * F64.t) :=
  d_sq ← py_pow_int m (Cfg.diameter_of_pore_d config) 2;
  rS ← py_div
         (f64 4 * (Cfg.mean_length_of_pore_l config
                   + (np_pi * Cfg.diameter_of_pore_d config) / f64 8))%F
         (np_pi * Cfg.n config * d_sq * Cfg.diffusion_coefficient_of_water_vapor_D config)%F;
  mret (d_sq, rS).

Definition scalars_wind (m : Libm) (config : Cfg.t)
  : exn + (F64.t * F64.t * F64.t * F64.t) :=
  q_c ← py_div (Cfg.Zc config - D config)%F (Zo config);
  q_ref ← py_div (Cfg.Z_reference config - D config)%F (Zo config);
  q_a ← py_div (f64 1 - Cfg.Zc config)%F (Cfg.Z_reference config);
  corr ← py_pow_int m (f64 1 + Cfg.alpha config * q_a)%F (-2);
  mret (q_c, q_ref, q_a, corr).

Definition mk_scalars (p : F64.t * F64.t) (w : F64.t * F64.t * F64.t * F64.t) : Scalars :=
  let '(d_sq, rS) := p in
  let '(q_c, q_ref, q_a, corr) := w in
  {| d_sq := d_sq; rS := rS; q_c := q_c; q_ref := q_ref; q_a := q_a; corr := corr |}.

Definition scalars (m : Libm) (config : Cfg.t) : exn + Scalars :=
  p ← scalars_pore m config;
  w ← scalars_wind m config;
  mret (mk_scalars p w).

(** ** The computation of one row

    Every column the estimator assigns, as a function of the raw fields of
    the row: the vectorised statements of the source read row by row.
    [estimate_run] below proves that this is what the estimator computes. *)

Module RowSem.
Section RowSem.
Variable m : Libm.
Variable config : Cfg.t.
Variable sc : Scalars.
Variable raw : Raw.t.

Definition AIR_TEMP_C : F64.t := ((Raw.AIR_TEMP_F raw - f64 32) * f64 5 / f64 9)%F.
Definition DEWPOINT_C : F64.t := ((Raw.DEWPOINT_F raw - f64 32) * f64 5 / f64 9)%F.
Definition DPD : F64.t := (AIR_TEMP_C - DEWPOINT_C)%F.
Definition SVP : F64.t :=
  (f64 0.6108 * libm_exp m ((f64 17.27 * AIR_TEMP_C) / (AIR_TEMP_C + f64 237.3)))%F.
Definition Slope_kPa : F64.t :=
  ((f64 4098 * SVP) / libm_pow m (AIR_TEMP_C + f64 237.3) (f64 2))%F.
Definition Slope_mbar : F64.t := (Slope_kPa * f64 10)%F.
Definition AVP : F64.t := (SVP * (Raw.RELATIVE_HUMIDITY raw / f64 100))%F.
Definition Uz : F64.t := (f64 2682.4 * Raw.WIND_SPEED_2M_MPH raw)%F.
Definition Uc : F64.t :=
  (Uz * (libm_log m (q_c sc) / libm_log m (q_ref sc)) * corr sc)%F.
Definition Transfer_Coefficient : F64.t := (c config * libm_pow m Uc (f64 0.5))%F.
Definition Ep : F64.t :=
  ((Slope_mbar
      / (Cfg.latent_heat_of_vaporization_J_g config
           * (Slope_mbar + Cfg.psychr_constant_mbar config)))
   * ((Cfg.density_of_air_g_cm3 config * Cfg.specific_heat_of_air_Jg_C config)
        * (Transfer_Coefficient / Slope_mbar))
   * ((SVP - AVP) * f64 10))%F.
Definition E_cm_min : F64.t := (Ep * W config)%F.
Definition Wind_Speed_m_s : F64.t :=
  if (Raw.WIND_SPEED_2M_MPH raw >? f64 0)%F
  then (f64 0.44704 * Raw.WIND_SPEED_2M_MPH raw)%F
  else f64 0.001.
Definition Reynolds_Number : F64.t :=
  ((Wind_Speed_m_s * Cfg.dimension_of_leaf_m config)
   / Cfg.kinematic_viscosity_of_air config)%F.
Definition Nusselt_Number : F64.t :=
  (f64 0.72 * libm_pow m Reynolds_Number (f64 0.6))%F.
Definition rB : F64.t :=
  (Cfg.dimension_of_leaf_m config / (f64 0.0000215 * Nusselt_Number))%F.
Definition hLW : F64.t :=
  ((f64 4 * Cfg.emissivity config * Cfg.stefan_boltzmann_constant config)
   * libm_pow m (AIR_TEMP_C + f64 273.15) (f64 3))%F.
Definition hH : F64.t :=
  ((Cfg.density_of_air_kg_m3 config * Cfg.specific_heat_of_air_J_kg_K config) / rB)%F.
Definition Slope_Pa_K : F64.t := ((Slope_kPa * f64 1000) / f64 273)%F.
Definition hET : F64.t :=
  ((Cfg.density_of_air_kg_m3 config * Cfg.specific_heat_of_air_J_kg_K config)
   * (Slope_Pa_K / (Cfg.psychrometer_constant_Pa_K config * (rB + rS sc))))%F.
Definition Leaf_Heat_Transfer_Coefficient : F64.t := (hLW + hH + hET)%F.
Definition Rhe : F64.t :=
  (Leaf_Heat_Transfer_Coefficient * Surface_Area config * (AIR_TEMP_C - DEWPOINT_C))%F.
Definition Potential_condensation_g_s : F64.t :=
  ((Rhe / Cfg.latent_heat_of_condensation_J_kg config) * f64 1000)%F.
(** The column ["Potential condensation of dew (mm)"] as first assigned,
    and as published after the dew-point-depression constraint. *)
Definition Potential_condensation_mm_chain : F64.t :=
  ((Potential_condensation_g_s / (Surface_Area config * f64 10000))
   * f64 10 * f64 60 * f64 15 * f64 2)%F.
Definition Potential_condensation_mm : F64.t :=
  if (DPD <? Cfg.critical_DPD config)%F then Potential_condensation_mm_chain else f64 0.
Definition Rain_Interception : F64.t :=
  if (Raw.PRECIP_INCHES raw >? f64 0)%F then f64 0.6 else f64 0.
Definition Evaporation : F64.t := (E_cm_min * f64 10 * f64 15)%F.
(** The column ["Estimated Leaf Wetness (mm)"] as first assigned, and as
    published after the floor at zero. *)
Definition Estimated_Leaf_Wetness_unfloored : F64.t :=
  if (Raw.AIR_TEMP_F raw >? f64 32)%F
  then ((Potential_condensation_mm + Rain_Interception) - Evaporation)%F
  else f64 0.
Definition Estimated_Leaf_Wetness : F64.t :=
  if (Estimated_Leaf_Wetness_unfloored >? f64 0)%F
  then Estimated_Leaf_Wetness_unfloored
  else f64 0.

Definition publish : Out.t := {|
  Out.AIR_TEMP_F := Raw.AIR_TEMP_F raw;
  Out.DEWPOINT_F := Raw.DEWPOINT_F raw;
  Out.WIND_SPEED_2M_MPH := Raw.WIND_SPEED_2M_MPH raw;
  Out.RELATIVE_HUMIDITY := Raw.RELATIVE_HUMIDITY raw;
  Out.Potential_condensation_of_dew_mm := Potential_condensation_mm;
  Out.Estimated_Leaf_Wetness_mm := Estimated_Leaf_Wetness
|}.

End RowSem.
End RowSem.

(** The columns the estimator assigns, in the order of the source, each
    with its row function. *)
Definition derived_columns (m : Libm) (config : Cfg.t) (sc : Scalars)
  : list (string * (Raw.t -> F64.t)) :=
  [ ("AIR_TEMP_C", RowSem.AIR_TEMP_C);
    ("DEWPOINT_C", RowSem.DEWPOINT_C);
    ("DPD", RowSem.DPD);
    ("SVP", RowSem.SVP m);
    ("Slope_kPa", RowSem.Slope_kPa m);
    ("Slope_mbar", RowSem.Slope_mbar m);
    ("AVP", RowSem.AVP m);
    ("Uz", RowSem.Uz);
    ("Uc", RowSem.Uc m sc);
    ("Transfer_Coefficient (cm min^-1)", RowSem.Transfer_Coefficient m config sc);
    ("Ep", RowSem.Ep m config sc);
    ("E (cm/min)", RowSem.E_cm_min m config sc);
    ("Wind Speed (m/s)", RowSem.Wind_Speed_m_s);
    ("Reynolds Number", RowSem.Reynolds_Number config);
    ("Nusselt Number", RowSem.Nusselt_Number m config);
    ("rB (s/m)", RowSem.rB m config);
    ("hLW", RowSem.hLW m config);
    ("hH", RowSem.hH m config);
    ("Slope_Pa_K", RowSem.Slope_Pa_K m);
    ("hET", RowSem.hET m config sc);
    ("Leaf Heat Transfer Coefficient (W/m^2/K)",
     RowSem.Leaf_Heat_Transfer_Coefficient m config sc);
    ("Rhe (J/s)", RowSem.Rhe m config sc);
    ("Potential condensation of dew (g/s)", RowSem.Potential_condensation_g_s m config sc);
    ("Potential condensation of dew (mm)", RowSem.Potential_condensation_mm_chain m config sc);
    ("Potential condensation of dew (mm)", RowSem.Potential_condensation_mm m config sc);
    ("Rain Interception (mm)", RowSem.Rain_Interception);
    ("Evaporation (mm)", RowSem.Evaporation m config sc);
    ("Estimated Leaf Wetness (mm)", RowSem.Estimated_Leaf_Wetness_unfloored m config sc);
    ("Estimated Leaf Wetness (mm)", RowSem.Estimated_Leaf_Wetness m config sc) ].

(** The frame after a call that returns: every derived column assigned. *)
Definition final_frame (m : Libm) (config : Cfg.t) (sc : Scalars) (df : DataFrame)
  : DataFrame :=
  foldl (fun d '(k, g) => setcol k (g <$> raw_table df) d) df (derived_columns m config sc).

(** The row function of the last assignment to the column [k], if the
    estimator assigns it. *)
Fixpoint last_assigned (cols : list (string * (Raw.t -> F64.t))) (k : string)
  : option (Raw.t -> F64.t) :=
  match cols with
  | [] => None
  | (k', g) :: rest =>
      match last_assigned rest k with
      | Some g' => Some g'
      | None => if decide (k' = k) then Some g else None
      end
  end.

(** What the frame holds in its raw columns, for the columns it has. *)
Record holds_raw (df : DataFrame) (raws : list Raw.t) : Prop := {
  holds_nrows : nrows df = length raws;
  holds_AIR_TEMP_F : forall col, columns df !! "AIR_TEMP_F" = Some col ->
    col = Raw.AIR_TEMP_F <$> raws;
  holds_DEWPOINT_F : forall col, columns df !! "DEWPOINT_F" = Some col ->
    col = Raw.DEWPOINT_F <$> raws;
  holds_RELATIVE_HUMIDITY : forall col, columns df !! "RELATIVE_HUMIDITY_%" = Some col ->
    col = Raw.RELATIVE_HUMIDITY <$> raws;
  holds_WIND_SPEED_2M_MPH : forall col, columns df !! "WIND_SPEED_2M_MPH" = Some col ->
    col = Raw.WIND_SPEED_2M_MPH <$> raws;
  holds_PRECIP_INCHES : forall col, columns df !! "PRECIP_INCHES" = Some col ->
    col = Raw.PRECIP_INCHES <$> raws
}.

(** [evals raws e df g]: on the frame [df] the expression [e] raises nothing
    and its value has, in every row, what [g] computes from the raw fields
    of that row. *)

Definition evals {A} (raws : list Raw.t) (e : E (list A)) (df : DataFrame)
    (g : Raw.t -> A) : Prop :=
  e df = inr (g <$> raws).

(** The result of a call on a well-formed frame, decided without running
    the statements: the exception of the first scalar computation that
    raises or of the first raw column that is missing, in the order of the
    source, and otherwise the records of the rows. [estimate_result] proves
    that this is the result of the estimator. *)
Definition outcome (m : Libm) (config : Cfg.t) (df : DataFrame) : exn + list Out.t :=
  p ← scalars_pore m config;
  _ ← data "AIR_TEMP_F" df;
  _ ← data "DEWPOINT_F" df;
  _ ← data "RELATIVE_HUMIDITY_%" df;
  _ ← data "WIND_SPEED_2M_MPH" df;
  w ← scalars_wind m config;
  _ ← data "PRECIP_INCHES" df;
  mret (RowSem.publish m config (mk_scalars p w) <$> raw_table df).

(** ** Frames and statements that keep their shape *)

(** [sized e]: on a well-formed frame the value of [e] has one entry per row. *)
Definition sized {A} (e : E (list A)) : Prop :=
  forall df v, frame_wf df -> e df = inr v -> length v = nrows df.

(** [keeps c]: the statement [c] leaves the frame well formed, with its rows
    and its raw columns as they were, whether it raises or not. *)
Definition keeps {A} (c : M A) : Prop :=
  forall df, frame_wf df ->
    frame_wf (c df).1 /\ nrows (c df).1 = nrows df
    /\ forall k, k ∈ raw_names -> columns (c df).1 !! k = columns df !! k.

(** The first raw column a frame lacks, in the order the estimator reads them. *)
Definition first_missing (df : DataFrame) : option string :=
  List.find (fun k => bool_decide (columns df !! k = None)) raw_names.

(** A cell pandas reports as missing ([isna]): the column is absent or the
    entry is NaN, which is how a frame built from records holds a record
    that lacks the field. *)
Definition missing_cell (df : DataFrame) (k : string) (i : nat) : bool :=
  F64.is_nan (cell df k i).

(** The frame [pd.DataFrame(records)] builds from records that have the
    five raw fields. *)
Definition frame_of_rows (raws : list Raw.t) : DataFrame := {|
  nrows := length raws;
  columns :=
    <["AIR_TEMP_F" := Raw.AIR_TEMP_F <$> raws]>
    (<["DEWPOINT_F" := Raw.DEWPOINT_F <$> raws]>
    (<["RELATIVE_HUMIDITY_%" := Raw.RELATIVE_HUMIDITY <$> raws]>
    (<["WIND_SPEED_2M_MPH" := Raw.WIND_SPEED_2M_MPH <$> raws]>
    (<["PRECIP_INCHES" := Raw.PRECIP_INCHES <$> raws]> ∅))))
|}.

(** The rows [l] taken in the order of the indices [p]. *)
Definition reorder {A} (p : list nat) (l : list A) : list A :=
  omap (fun i => l !! i) p.

(** Every published field of a record is finite. *)
Definition record_finite (r : Out.t) : bool :=
  F64.is_finite (Out.AIR_TEMP_F r) && F64.is_finite (Out.DEWPOINT_F r)
  && F64.is_finite (Out.WIND_SPEED_2M_MPH r) && F64.is_finite (Out.RELATIVE_HUMIDITY r)
  && F64.is_finite (Out.Potential_condensation_of_dew_mm r)
  && F64.is_finite (Out.Estimated_Leaf_Wetness_mm r).

Definition raw_finite (raw : Raw.t) : bool :=
  F64.is_finite (Raw.AIR_TEMP_F raw) && F64.is_finite (Raw.DEWPOINT_F raw)
  && F64.is_finite (Raw.RELATIVE_HUMIDITY raw) && F64.is_finite (Raw.WIND_SPEED_2M_MPH raw)
  && F64.is_finite (Raw.PRECIP_INCHES raw).

(** ** Example rows and frames *)

(** A mild dry afternoon. *)
Definition row_mild : Raw.t := {|
  Raw.AIR_TEMP_F := f64 70; Raw.DEWPOINT_F := f64 50; Raw.RELATIVE_HUMIDITY := f64 60;
  Raw.WIND_SPEED_2M_MPH := f64 5; Raw.PRECIP_INCHES := f64 0 |}.

(** A calm, saturated, rainy hour whose reported dew point is above the air
    temperature. *)
Definition row_dew : Raw.t := {|
  Raw.AIR_TEMP_F := f64 50; Raw.DEWPOINT_F := f64 59; Raw.RELATIVE_HUMIDITY := f64 100;
  Raw.WIND_SPEED_2M_MPH := f64 0; Raw.PRECIP_INCHES := f64 0.1 |}.

(** Rain below freezing. *)
Definition row_freezing : Raw.t := {|
  Raw.AIR_TEMP_F := f64 30; Raw.DEWPOINT_F := f64 25; Raw.RELATIVE_HUMIDITY := f64 80;
  Raw.WIND_SPEED_2M_MPH := f64 3; Raw.PRECIP_INCHES := f64 0.2 |}.

Definition example_frame : DataFrame := frame_of_rows [row_mild; row_dew; row_freezing].

(** A finite dew point so large that its conversion to Celsius overflows. *)
Definition row_overflow : Raw.t := {|
  Raw.AIR_TEMP_F := f64 70; Raw.DEWPOINT_F := f64 1e308; Raw.RELATIVE_HUMIDITY := f64 60;
  Raw.WIND_SPEED_2M_MPH := f64 5; Raw.PRECIP_INCHES := f64 0 |}.

(** A finite wind so large that the evaporation term overflows. *)
Definition row_wet_overflow : Raw.t := {|
  Raw.AIR_TEMP_F := f64 70; Raw.DEWPOINT_F := f64 50; Raw.RELATIVE_HUMIDITY := f64 200;
  Raw.WIND_SPEED_2M_MPH := f64 1e308; Raw.PRECIP_INCHES := f64 0 |}.

(** A record without a dew point, as the frame holds it next to records
    that have one: the cell is NaN. *)
Definition row_missing_dew : Raw.t := {|
  Raw.AIR_TEMP_F := f64 70; Raw.DEWPOINT_F := F64.nan; Raw.RELATIVE_HUMIDITY := f64 60;
  Raw.WIND_SPEED_2M_MPH := f64 5; Raw.PRECIP_INCHES := f64 0 |}.

(** A frame none of whose records has a dew point: the column is absent. *)
Definition frame_without_dewpoint : DataFrame := {|
  nrows := 1;
  columns := delete "DEWPOINT_F" (columns (frame_of_rows [row_mild])) |}.

(** ** Accuracy of the mathematical library

    Whether a quantity is finite or negative depends on what [exp], [log]
    and [pow] return. The properties that need it assume, for the calls the
    estimator makes on the row at hand, that the library returns the number
    [RefLibm] returns or one of its two neighbours. *)

(** The [k] binary64 numbers below [x], [x], and the [k] numbers above it. *)
Definition ulp_ball (k : nat) (x : F64.t) : list F64.t :=
  ((fun j => Nat.iter j F64.pred x) <$> reverse (seq 1 k))
  ++ x :: ((fun j => Nat.iter j F64.succ x) <$> seq 1 k).

Definition tolerance : nat := 1.

Definition exp_accurate (m : Libm) (x : F64.t) : Prop :=
  libm_exp m x ∈ ulp_ball tolerance (RefLibm.exp x).
Definition log_accurate (m : Libm) (x : F64.t) : Prop :=
  libm_log m x ∈ ulp_ball tolerance (RefLibm.log x).
Definition pow_accurate (m : Libm) (x y : F64.t) : Prop :=
  libm_pow m x y ∈ ulp_ball tolerance (RefLibm.pow x y).

(** The base of the wind profile correction of line 109. *)
Definition wind_profile_base : F64.t :=
  (f64 1 + Cfg.alpha config * ((f64 1 - Cfg.Zc config) / Cfg.Z_reference config))%F.

(** The Reynolds number of a row whose wind is floored to 0.001 m/s. *)
Definition calm_Reynolds : F64.t :=
  ((f64 0.001 * Cfg.dimension_of_leaf_m config) / Cfg.kinematic_viscosity_of_air config)%F.

(** The two scalar powers of a call with the constants [config]
    (lines 88 and 109). *)
Definition scalar_calls_accurate (m : Libm) : Prop :=
  pow_accurate m (Cfg.diameter_of_pore_d config) (f64 2)
  /\ pow_accurate m wind_profile_base (f64 (-2)).

(** The scalars of a call with the constants [config], when nothing raises. *)
Definition config_scalars (m : Libm) : Scalars :=
  let p := libm_pow m (Cfg.diameter_of_pore_d config) (f64 2) in
  {| d_sq := p;
     rS := (f64 4 * (Cfg.mean_length_of_pore_l config
                     + (np_pi * Cfg.diameter_of_pore_d config) / f64 8)
            / (np_pi * Cfg.n config * p * Cfg.diffusion_coefficient_of_water_vapor_D config))%F;
     q_c := ((Cfg.Zc config - D config) / Zo config)%F;
     q_ref := ((Cfg.Z_reference config - D config) / Zo config)%F;
     q_a := ((f64 1 - Cfg.Zc config) / Cfg.Z_reference config)%F;
     corr := libm_pow m wind_profile_base (f64 (-2)) |}.

Definition is_ok {A} (r : exn + A) : bool :=
  match r with inr _ => true | inl _ => false end.

(** Every call of the library the estimator makes for the row [raw], with
    the constants [config]. *)
Definition row_calls_accurate (m : Libm) (raw : Raw.t) : Prop :=
  scalar_calls_accurate m
  /\ exp_accurate m (f64 17.27 * RowSem.AIR_TEMP_C raw / (RowSem.AIR_TEMP_C raw + f64 237.3))%F
  /\ pow_accurate m (RowSem.AIR_TEMP_C raw + f64 237.3)%F (f64 2)
  /\ pow_accurate m (RowSem.AIR_TEMP_C raw + f64 273.15)%F (f64 3)
  /\ pow_accurate m (RowSem.Reynolds_Number config raw) (f64 0.6)
  /\ log_accurate m (q_c (config_scalars m))
  /\ log_accurate m (q_ref (config_scalars m))
  /\ pow_accurate m (RowSem.Uc m (config_scalars m) raw) (f64 0.5).

(** The condensation chain of a row: every quantity finite, a negative dew
    point depression, a negative published condensation, and a sum with the
    rain interception that is not zero. *)
Definition condensation_facts (m : Libm) (sc : Scalars) (raw : Raw.t) : bool :=
  forallb F64.is_finite
    [ RowSem.AIR_TEMP_C raw; RowSem.DEWPOINT_C raw; RowSem.DPD raw; RowSem.SVP m raw;
      RowSem.Slope_kPa m raw; RowSem.Slope_mbar m raw; RowSem.AVP m raw;
      RowSem.Wind_Speed_m_s raw; RowSem.Reynolds_Number config raw;
      RowSem.Nusselt_Number m config raw; RowSem.rB m config raw; RowSem.hLW m config raw;
      RowSem.hH m config raw; RowSem.Slope_Pa_K m raw; RowSem.hET m config sc raw;
      RowSem.Leaf_Heat_Transfer_Coefficient m config sc raw; RowSem.Rhe m config sc raw;
      RowSem.Potential_condensation_g_s m config sc raw;
      RowSem.Potential_condensation_mm_chain m config sc raw;
      RowSem.Potential_condensation_mm m config sc raw;
      RowSem.Rain_Interception raw;
      (RowSem.Potential_condensation_mm m config sc raw + RowSem.Rain_Interception raw)%F ]
  && (RowSem.DPD raw <? f64 0)%F
  && (RowSem.Potential_condensation_mm m config sc raw <? f64 0)%F
  && negb (F64.is_zero
             (RowSem.Potential_condensation_mm m config sc raw + RowSem.Rain_Interception raw)%F).

(** The evaporation chain of a row: every quantity finite and an
    evaporation of zero. *)
Definition evaporation_facts (m : Libm) (sc : Scalars) (raw : Raw.t) : bool :=
  forallb F64.is_finite
    [ RowSem.Uz raw; RowSem.Uc m sc raw; RowSem.Transfer_Coefficient m config sc raw;
      RowSem.Ep m config sc raw; RowSem.E_cm_min m config sc raw;
      RowSem.Evaporation m config sc raw ]
  && F64.is_zero (RowSem.Evaporation m config sc raw).

(** ** Constants, columns and rows for the further properties *)

(** The constants of the source with a stomatal density of zero. *)
Definition config_no_stomata : Cfg.t := {|
  Cfg.Z_reference := Cfg.Z_reference config;
  Cfg.Zc := Cfg.Zc config;
  Cfg.alpha := Cfg.alpha config;
  Cfg.LAI := Cfg.LAI config;
  Cfg.Wmax := Cfg.Wmax config;
  Cfg.Wf := Cfg.Wf config;
  Cfg.shape_scale_film_cf := Cfg.shape_scale_film_cf config;
  Cfg.shape_scale_drop_cd := Cfg.shape_scale_drop_cd config;
  Cfg.dimension_of_leaf_m := Cfg.dimension_of_leaf_m config;
  Cfg.width_of_leaf_m := Cfg.width_of_leaf_m config;
  Cfg.n := f64 0;
  Cfg.mean_length_of_pore_l := Cfg.mean_length_of_pore_l config;
  Cfg.diameter_of_pore_d := Cfg.diameter_of_pore_d config;
  Cfg.critical_DPD := Cfg.critical_DPD config;
  Cfg.psychr_constant_mbar := Cfg.psychr_constant_mbar config;
  Cfg.density_of_air_g_cm3 := Cfg.density_of_air_g_cm3 config;
  Cfg.specific_heat_of_air_Jg_C := Cfg.specific_heat_of_air_Jg_C config;
  Cfg.latent_heat_of_vaporization_J_g := Cfg.latent_heat_of_vaporization_J_g config;
  Cfg.kinematic_viscosity_of_air := Cfg.kinematic_viscosity_of_air config;
  Cfg.emissivity := Cfg.emissivity config;
  Cfg.stefan_boltzmann_constant := Cfg.stefan_boltzmann_constant config;
  Cfg.density_of_air_kg_m3 := Cfg.density_of_air_kg_m3 config;
  Cfg.specific_heat_of_air_J_kg_K := Cfg.specific_heat_of_air_J_kg_K config;
  Cfg.diffusion_coefficient_of_water_vapor_D := Cfg.diffusion_coefficient_of_water_vapor_D config;
  Cfg.latent_heat_of_condensation_J_kg := Cfg.latent_heat_of_condensation_J_kg config;
  Cfg.psychrometer_constant_Pa_K := Cfg.psychrometer_constant_Pa_K config
|}.

(** The constants of the source with a reference height of zero. *)
Definition config_zero_reference : Cfg.t := {|
  Cfg.Z_reference := f64 0;
  Cfg.Zc := Cfg.Zc config;
  Cfg.alpha := Cfg.alpha config;
  Cfg.LAI := Cfg.LAI config;
  Cfg.Wmax := Cfg.Wmax config;
  Cfg.Wf := Cfg.Wf config;
  Cfg.shape_scale_film_cf := Cfg.shape_scale_film_cf config;
  Cfg.shape_scale_drop_cd := Cfg.shape_scale_drop_cd config;
  Cfg.dimension_of_leaf_m := Cfg.dimension_of_leaf_m config;
  Cfg.width_of_leaf_m := Cfg.width_of_leaf_m config;
  Cfg.n := Cfg.n config;
  Cfg.mean_length_of_pore_l := Cfg.mean_length_of_pore_l config;
  Cfg.diameter_of_pore_d := Cfg.diameter_of_pore_d config;
  Cfg.critical_DPD := Cfg.critical_DPD config;
  Cfg.psychr_constant_mbar := Cfg.psychr_constant_mbar config;
  Cfg.density_of_air_g_cm3 := Cfg.density_of_air_g_cm3 config;
  Cfg.specific_heat_of_air_Jg_C := Cfg.specific_heat_of_air_Jg_C config;
  Cfg.latent_heat_of_vaporization_J_g := Cfg.latent_heat_of_vaporization_J_g config;
  Cfg.kinematic_viscosity_of_air := Cfg.kinematic_viscosity_of_air config;
  Cfg.emissivity := Cfg.emissivity config;
  Cfg.stefan_boltzmann_constant := Cfg.stefan_boltzmann_constant config;
  Cfg.density_of_air_kg_m3 := Cfg.density_of_air_kg_m3 config;
  Cfg.specific_heat_of_air_J_kg_K := Cfg.specific_heat_of_air_J_kg_K config;
  Cfg.diffusion_coefficient_of_water_vapor_D := Cfg.diffusion_coefficient_of_water_vapor_D config;
  Cfg.latent_heat_of_condensation_J_kg := Cfg.latent_heat_of_condensation_J_kg config;
  Cfg.psychrometer_constant_Pa_K := Cfg.psychrometer_constant_Pa_K config
|}.

(** The eight columns the estimator has assigned when it reaches the wind
    profile of line 109. *)
Definition early_columns (m : Libm) : list (string * (Raw.t -> F64.t)) :=
  [ ("AIR_TEMP_C", RowSem.AIR_TEMP_C);
    ("DEWPOINT_C", RowSem.DEWPOINT_C);
    ("DPD", RowSem.DPD);
    ("SVP", RowSem.SVP m);
    ("Slope_kPa", RowSem.Slope_kPa m);
    ("Slope_mbar", RowSem.Slope_mbar m);
    ("AVP", RowSem.AVP m);
    ("Uz", RowSem.Uz) ].

(** A record without an air temperature. *)
Definition row_missing_temp : Raw.t := {|
  Raw.AIR_TEMP_F := F64.nan; Raw.DEWPOINT_F := f64 50; Raw.RELATIVE_HUMIDITY := f64 60;
  Raw.WIND_SPEED_2M_MPH := f64 5; Raw.PRECIP_INCHES := f64 0.3 |}.

(** A record without a wind speed. *)
Definition row_missing_wind : Raw.t := {|
  Raw.AIR_TEMP_F := f64 70; Raw.DEWPOINT_F := f64 50; Raw.RELATIVE_HUMIDITY := f64 60;
  Raw.WIND_SPEED_2M_MPH := F64.nan; Raw.PRECIP_INCHES := f64 0 |}.

(** The names of the columns the estimator assigns. *)
Definition derived_names : list string :=
  [ "AIR_TEMP_C"; "DEWPOINT_C"; "DPD"; "SVP"; "Slope_kPa"; "Slope_mbar"; "AVP"; "Uz"; "Uc";
    "Transfer_Coefficient (cm min^-1)"; "Ep"; "E (cm/min)"; "Wind Speed (m/s)";
    "Reynolds Number"; "Nusselt Number"; "rB (s/m)"; "hLW"; "hH"; "Slope_Pa_K"; "hET";
    "Leaf Heat Transfer Coefficient (W/m^2/K)"; "Rhe (J/s)";
    "Potential condensation of dew (g/s)"; "Potential condensation of dew (mm)";
    "Rain Interception (mm)"; "Evaporation (mm)"; "Estimated Leaf Wetness (mm)" ].

(** * Properties *)

(** ** Rows and columns of a well-formed frame *)

Lemma length_raw_table (df : DataFrame) : length (raw_table df) = nrows df.
Proof. unfold raw_table. by rewrite length_fmap, length_seq. Qed.

Lemma column_cells (df : DataFrame) (k : string) (col : Series) :
  frame_wf df -> columns df !! k = Some col ->
  col = cell df k <$> seq 0 (nrows df).
Proof.
  intros Hwf Hk. apply list_eq. intros i.
  rewrite list_lookup_fmap. unfold cell. rewrite Hk. simpl.
  destruct (decide (i < nrows df)) as [Hi|Hi].
  - rewrite lookup_seq_lt by done. simpl.
    destruct (col !! i) eqn:E; [done|].
    apply lookup_ge_None in E. rewrite (Hwf _ _ Hk) in E. lia.
  - rewrite lookup_seq_ge by lia. simpl.
    apply lookup_ge_None. rewrite (Hwf _ _ Hk). lia.
Qed.

Lemma frame_holds_raw (df : DataFrame) :
  frame_wf df -> holds_raw df (raw_table df).
Proof.
  intros Hwf. split; [by rewrite length_raw_table|..];
    intros col Hk; rewrite (column_cells df _ col Hwf Hk);
    unfold raw_table; by rewrite <- list_fmap_compose.
Qed.

Lemma has_raw_columns_lookup (df : DataFrame) (k : string) :
  has_raw_columns df -> k ∈ raw_names -> is_Some (columns df !! k).
Proof. intros H Hk. by apply (proj1 (Forall_forall _ _) H). Qed.

(** ** Evaluating expressions over a frame that holds a table *)

Lemma zip_with_fmap_same {A B C X} (f : A -> B -> C) (g : X -> A) (h : X -> B)
    (l : list X) :
  zip_with f (g <$> l) (h <$> l) = (fun x => f (g x) (h x)) <$> l.
Proof. induction l; simpl; [done|]. by f_equal. Qed.

Section Evals.
Context (raws : list Raw.t) (df : DataFrame).

Lemma evals_data k g :
  columns df !! k = Some (g <$> raws) -> evals raws (data k) df g.
Proof. unfold evals, data. by intros ->. Qed.

Lemma evals_map {A B} (f : A -> B) e g :
  evals raws e df g -> evals raws (e_map (fmap f) e) df (fun r => f (g r)).
Proof. unfold evals, e_map. intros ->. by rewrite <- list_fmap_compose. Qed.

Lemma evals_map2 {A B C} (f : A -> B -> C) a b g h :
  evals raws a df g -> evals raws b df h ->
  evals raws (e_map2 (zip_with f) a b) df (fun r => f (g r) (h r)).
Proof. unfold evals, e_map2. intros -> ->. by rewrite zip_with_fmap_same. Qed.

Lemma for_each_seq {B} (h : nat -> exn + B) (g : Raw.t -> B) (s : nat)
    (l : list Raw.t) :
  (forall j raw, l !! j = Some raw -> h (s + j) = inr (g raw)) ->
  for_each h (seq s (length l)) = inr (g <$> l).
Proof.
  revert s. induction l as [|raw l IH]; intros s Hh; simpl; [done|].
  rewrite <- (Nat.add_0_r s) at 1. rewrite (Hh 0 raw) by done.
  rewrite (IH (S s)); [done|].
  intros j r Hj. replace (S s + j) with (s + S j) by lia. by apply Hh.
Qed.

Lemma evals_frame_apply (f : Row -> exn + F64.t) g :
  nrows df = length raws ->
  (forall i raw, raws !! i = Some raw -> f (row_at df i) = inr (g raw)) ->
  evals raws (frame_apply f) df g.
Proof.
  intros Hn Hf. unfold evals, frame_apply. rewrite Hn.
  apply for_each_seq. intros j raw Hj. by apply Hf.
Qed.

Lemma row_at_col k g i raw :
  columns df !! k = Some (g <$> raws) -> raws !! i = Some raw ->
  row_at df i k = inr (g raw).
Proof.
  intros Hk Hi. unfold row_at. rewrite Hk. simpl.
  by rewrite list_lookup_fmap, Hi.
Qed.
End Evals.

(** ** Running statements *)

Lemma bind_py {A B} (r : exn + A) (a : A) (f : A -> M B) df :
  r = inr a -> (py r ≫= f) df = f a df.
Proof. by intros ->. Qed.

Lemma bind_py_raise {A B} (r : exn + A) x (f : A -> M B) df :
  r = inl x -> (py r ≫= f) df = (df, inl x).
Proof. by intros ->. Qed.

Lemma bind_assign {B} raws k e g (f : unit -> M B) df :
  evals raws e df g -> (assign k e ≫= f) df = f tt (setcol k (g <$> raws) df).
Proof. unfold evals, assign, mbind, M_bind. by intros ->. Qed.

(** The same, naming the row function the column is to be read as. *)
Lemma bind_assign_as {B} raws k e g g' (f : unit -> M B) df :
  evals raws e df g -> g = g' ->
  (assign k e ≫= f) df = f tt (setcol k (g' <$> raws) df).
Proof. intros He <-. by apply bind_assign. Qed.

Lemma bind_assign_raise {B} k e x (f : unit -> M B) df :
  e df = inl x -> (assign k e ≫= f) df = (df, inl x).
Proof. unfold assign, mbind, M_bind. by intros ->. Qed.

Ltac solve_lookup :=
  cbn [columns setcol nrows];
  repeat (rewrite lookup_insert_ne by done);
  first [ apply lookup_insert_eq | eassumption ].

Ltac eval_expr :=
  unfold vv, sv, np_exp, np_power, lt_s, gt_s, np_where, np_where_const, series_apply;
  unfold vs;
  repeat first [ eapply evals_map2 | eapply evals_map | (apply evals_data; solve_lookup) ].

(** One assignment, its column read as the row function [G]. *)
Ltac step_as raws G :=
  erewrite (bind_assign_as raws _ _ _ G); [ | eval_expr | reflexivity ].

Ltac step raws := erewrite (bind_assign raws); [ | eval_expr ].

Lemma data_lookup df k col : columns df !! k = Some col -> data k df = inr col.
Proof. unfold data. by intros ->. Qed.

Lemma data_missing df k : columns df !! k = None -> data k df = inl (KeyError k).
Proof. unfold data. by intros ->. Qed.

Lemma scalars_pore_inv m config d r :
  scalars_pore m config = inr (d, r) ->
  py_pow_int m (Cfg.diameter_of_pore_d config) 2 = inr d
  /\ py_div
       (f64 4 * (Cfg.mean_length_of_pore_l config
                 + (np_pi * Cfg.diameter_of_pore_d config) / f64 8))%F
       (np_pi * Cfg.n config * d * Cfg.diffusion_coefficient_of_water_vapor_D config)%F
     = inr r.
Proof.
  intros Hsc. unfold scalars_pore, mbind, exn_bind, mret, exn_ret in Hsc.
  destruct (py_pow_int m (Cfg.diameter_of_pore_d config) 2) as [|v1] eqn:E1; [discriminate|].
  destruct (py_div _ _) as [|v2] eqn:E2 in Hsc; [discriminate|].
  injection Hsc as <- <-. by rewrite E2.
Qed.

Lemma scalars_wind_inv m config a b c d :
  scalars_wind m config = inr (a, b, c, d) ->
  py_div (Cfg.Zc config - D config)%F (Zo config) = inr a
  /\ py_div (Cfg.Z_reference config - D config)%F (Zo config) = inr b
  /\ py_div (f64 1 - Cfg.Zc config)%F (Cfg.Z_reference config) = inr c
  /\ py_pow_int m (f64 1 + Cfg.alpha config * c)%F (-2) = inr d.
Proof.
  intros Hsc. unfold scalars_wind, mbind, exn_bind, mret, exn_ret in Hsc.
  destruct (py_div _ _) as [|v3] eqn:E3 in Hsc; [discriminate|].
  destruct (py_div _ _) as [|v4] eqn:E4 in Hsc; [discriminate|].
  destruct (py_div _ _) as [|v5] eqn:E5 in Hsc; [discriminate|].
  destruct (py_pow_int _ _ _) as [|v6] eqn:E6 in Hsc; [discriminate|].
  injection Hsc as <- <- <- <-. by rewrite E3, E4, E5, E6.
Qed.

Lemma scalars_parts m config sc :
  scalars m config = inr sc ->
  scalars_pore m config = inr (d_sq sc, rS sc)
  /\ scalars_wind m config = inr (q_c sc, q_ref sc, q_a sc, corr sc).
Proof.
  unfold scalars, mbind, exn_bind, mret, exn_ret.
  destruct (scalars_pore m config) as [|[d r]]; [discriminate|].
  destruct (scalars_wind m config) as [|[[[a b] c'] d']]; [discriminate|].
  by intros [= <-].
Qed.

Lemma scalars_inv m config sc :
  scalars m config = inr sc ->
  py_pow_int m (Cfg.diameter_of_pore_d config) 2 = inr (d_sq sc)
  /\ py_div
       (f64 4 * (Cfg.mean_length_of_pore_l config
                 + (np_pi * Cfg.diameter_of_pore_d config) / f64 8))%F
       (np_pi * Cfg.n config * d_sq sc * Cfg.diffusion_coefficient_of_water_vapor_D config)%F
     = inr (rS sc)
  /\ py_div (Cfg.Zc config - D config)%F (Zo config) = inr (q_c sc)
  /\ py_div (Cfg.Z_reference config - D config)%F (Zo config) = inr (q_ref sc)
  /\ py_div (f64 1 - Cfg.Zc config)%F (Cfg.Z_reference config) = inr (q_a sc)
  /\ py_pow_int m (f64 1 + Cfg.alpha config * q_a sc)%F (-2) = inr (corr sc).
Proof.
  intros [Hp Hw]%scalars_parts.
  apply scalars_pore_inv in Hp. apply scalars_wind_inv in Hw. tauto.
Qed.

(** The raw columns of a well-formed frame that has them, read as the
    fields of its rows. *)
Lemma raw_columns_of_table (df : DataFrame) :
  frame_wf df -> has_raw_columns df ->
  columns df !! "AIR_TEMP_F" = Some (Raw.AIR_TEMP_F <$> raw_table df)
  /\ columns df !! "DEWPOINT_F" = Some (Raw.DEWPOINT_F <$> raw_table df)
  /\ columns df !! "RELATIVE_HUMIDITY_%" = Some (Raw.RELATIVE_HUMIDITY <$> raw_table df)
  /\ columns df !! "WIND_SPEED_2M_MPH" = Some (Raw.WIND_SPEED_2M_MPH <$> raw_table df)
  /\ columns df !! "PRECIP_INCHES" = Some (Raw.PRECIP_INCHES <$> raw_table df).
Proof.
  intros Hwf Hraw.
  destruct (frame_holds_raw df Hwf) as [Hn H1 H2 H3 H4 H5].
  destruct (has_raw_columns_lookup df "AIR_TEMP_F" Hraw) as [c1 HT]; [set_solver|].
  destruct (has_raw_columns_lookup df "DEWPOINT_F" Hraw) as [c2 HD]; [set_solver|].
  destruct (has_raw_columns_lookup df "RELATIVE_HUMIDITY_%" Hraw) as [c3 HR]; [set_solver|].
  destruct (has_raw_columns_lookup df "WIND_SPEED_2M_MPH" Hraw) as [c4 HW]; [set_solver|].
  destruct (has_raw_columns_lookup df "PRECIP_INCHES" Hraw) as [c5 HP]; [set_solver|].
  rewrite (H1 _ HT) in HT. rewrite (H2 _ HD) in HD. rewrite (H3 _ HR) in HR.
  rewrite (H4 _ HW) in HW. rewrite (H5 _ HP) in HP. done.
Qed.

(** ** The estimator computes every row by [RowSem]

    On a well-formed frame that has the five raw columns, with constants
    whose scalars raise nothing, the call returns one record per row, in row
    order: the record [RowSem.publish] computes from the raw fields of the
    row; and it leaves the frame with the derived columns assigned. *)
Theorem estimate_run (m : Libm) (config : Cfg.t) (df : DataFrame) (sc : Scalars) :
  frame_wf df -> has_raw_columns df -> scalars m config = inr sc ->
  estimate_leaf_wetness m config df
  = (final_frame m config sc df, inr (RowSem.publish m config sc <$> raw_table df)).
Proof.
  intros Hwf Hraw Hsc.
  destruct (raw_columns_of_table df Hwf Hraw) as (HT & HD & HR & HW & HP).
  pose proof (length_raw_table df) as Hn. symmetry in Hn.
  unfold final_frame.
  set (raws := raw_table df) in *.
  destruct (scalars_inv _ _ _ Hsc) as (E1 & E2 & E3 & E4 & E5 & E6).
  unfold estimate_leaf_wetness. cbv zeta.
  rewrite (bind_py _ _ _ _ E1), (bind_py _ _ _ _ E2).
  step_as raws RowSem.AIR_TEMP_C.
  step_as raws RowSem.DEWPOINT_C.
  step_as raws RowSem.DPD.
  step_as raws (RowSem.SVP m).
  step_as raws (RowSem.Slope_kPa m).
  step_as raws (RowSem.Slope_mbar m).
  step_as raws (RowSem.AVP m).
  step_as raws RowSem.Uz.
  rewrite (bind_py _ _ _ _ E3), (bind_py _ _ _ _ E4), (bind_py _ _ _ _ E5),
    (bind_py _ _ _ _ E6).
  step_as raws (RowSem.Uc m sc).
  step_as raws (RowSem.Transfer_Coefficient m config sc).
  step_as raws (RowSem.Ep m config sc).
  step_as raws (RowSem.E_cm_min m config sc).
  step_as raws RowSem.Wind_Speed_m_s.
  step_as raws (RowSem.Reynolds_Number config).
  step_as raws (RowSem.Nusselt_Number m config).
  step_as raws (RowSem.rB m config).
  step_as raws (RowSem.hLW m config).
  step_as raws (RowSem.hH m config).
  step_as raws (RowSem.Slope_Pa_K m).
  step_as raws (RowSem.hET m config sc).
  step_as raws (RowSem.Leaf_Heat_Transfer_Coefficient m config sc).
  step_as raws (RowSem.Rhe m config sc).
  step_as raws (RowSem.Potential_condensation_g_s m config sc).
  step_as raws (RowSem.Potential_condensation_mm_chain m config sc).
  step_as raws (RowSem.Potential_condensation_mm m config sc).
  step_as raws RowSem.Rain_Interception.
  step_as raws (RowSem.Evaporation m config sc).
  erewrite (bind_assign raws _ _ (RowSem.Estimated_Leaf_Wetness_unfloored m config sc)).
  2:{ apply evals_frame_apply; [exact Hn|].
      intros i raw Hi.
      rewrite (row_at_col raws _ "AIR_TEMP_F" Raw.AIR_TEMP_F i raw)
        by (solve_lookup || done).
      unfold RowSem.Estimated_Leaf_Wetness_unfloored. cbn [mbind exn_bind].
      destruct (Raw.AIR_TEMP_F raw >? _)%F; [|reflexivity].
      rewrite (row_at_col raws _ "Potential condensation of dew (mm)"
                 (RowSem.Potential_condensation_mm m config sc) i raw)
        by (solve_lookup || done).
      rewrite (row_at_col raws _ "Rain Interception (mm)" RowSem.Rain_Interception i raw)
        by (solve_lookup || done).
      rewrite (row_at_col raws _ "Evaporation (mm)" (RowSem.Evaporation m config sc) i raw)
        by (solve_lookup || done).
      reflexivity. }
  step_as raws (RowSem.Estimated_Leaf_Wetness m config sc).
  unfold to_dict_records. f_equal.
  erewrite (data_lookup _ "AIR_TEMP_F") by solve_lookup.
  erewrite (data_lookup _ "DEWPOINT_F") by solve_lookup.
  erewrite (data_lookup _ "WIND_SPEED_2M_MPH") by solve_lookup.
  erewrite (data_lookup _ "RELATIVE_HUMIDITY_%") by solve_lookup.
  erewrite (data_lookup _ "Potential condensation of dew (mm)") by solve_lookup.
  erewrite (data_lookup _ "Estimated Leaf Wetness (mm)") by solve_lookup.
  cbn [mbind exn_bind mret exn_ret].
  by rewrite !zip_with_fmap_same.
Qed.

(** ** The result of every call on a well-formed frame *)

Ltac solve_missing :=
  cbn [columns setcol nrows];
  repeat (rewrite lookup_insert_ne by done);
  eassumption.

(** An expression raises [KeyError] at the first column the frame lacks. *)
Ltac raise_expr :=
  unfold vv, sv, np_exp, np_power, lt_s, gt_s, np_where, np_where_const, series_apply;
  unfold vs; unfold e_map, e_map2;
  repeat first [ rewrite data_missing by solve_missing
               | erewrite data_lookup by solve_lookup ];
  reflexivity.

Ltac raise_here := erewrite bind_assign_raise; [ | raise_expr ].

Lemma scalars_pore_raise m config x :
  scalars_pore m config = inl x ->
  py_pow_int m (Cfg.diameter_of_pore_d config) 2 = inl x
  \/ exists d, py_pow_int m (Cfg.diameter_of_pore_d config) 2 = inr d
     /\ py_div
       (f64 4 * (Cfg.mean_length_of_pore_l config
                 + (np_pi * Cfg.diameter_of_pore_d config) / f64 8))%F
       (np_pi * Cfg.n config * d * Cfg.diffusion_coefficient_of_water_vapor_D config)%F
     = inl x.
Proof.
  intros H. unfold scalars_pore, mbind, exn_bind, mret, exn_ret in H.
  destruct (py_pow_int m (Cfg.diameter_of_pore_d config) 2) as [|v1] eqn:E1.
  - injection H as <-. by left.
  - destruct (py_div _ _) as [|v2] eqn:E2; [|discriminate].
    injection H as <-. right. by exists v1.
Qed.

Lemma scalars_wind_raise m config x :
  scalars_wind m config = inl x ->
  py_div (Cfg.Zc config - D config)%F (Zo config) = inl x
  \/ (exists a, py_div (Cfg.Zc config - D config)%F (Zo config) = inr a
      /\ (py_div (Cfg.Z_reference config - D config)%F (Zo config) = inl x
          \/ exists b, py_div (Cfg.Z_reference config - D config)%F (Zo config) = inr b
             /\ (py_div (f64 1 - Cfg.Zc config)%F (Cfg.Z_reference config) = inl x
                 \/ exists c, py_div (f64 1 - Cfg.Zc config)%F (Cfg.Z_reference config) = inr c
                    /\ py_pow_int m (f64 1 + Cfg.alpha config * c)%F (-2) = inl x))).
Proof.
  intros H. unfold scalars_wind, mbind, exn_bind, mret, exn_ret in H.
  destruct (py_div (Cfg.Zc config - D config)%F (Zo config)) as [|a] eqn:E3.
  { injection H as <-. by left. }
  right. exists a. split; [done|].
  destruct (py_div (Cfg.Z_reference config - D config)%F (Zo config)) as [|b] eqn:E4.
  { injection H as <-. by left. }
  right. exists b. split; [done|].
  destruct (py_div (f64 1 - Cfg.Zc config)%F (Cfg.Z_reference config)) as [|c'] eqn:E5.
  { injection H as <-. by left. }
  right. exists c'. split; [done|].
  destruct (py_pow_int _ _ _) as [|v6] eqn:E6; [|discriminate].
  by injection H as <-.
Qed.

(** The estimator returns what [outcome] says: the statements are run up to
    the first that raises. *)
Theorem estimate_result (m : Libm) (config : Cfg.t) (df : DataFrame) :
  frame_wf df ->
  (estimate_leaf_wetness m config df).2 = outcome m config df.
Proof.
  intros Hwf. unfold outcome.
  destruct (frame_holds_raw df Hwf) as [Hn H1 H2 H3 H4 H5].
  set (raws := raw_table df) in *.
  destruct (scalars_pore m config) as [x|[d r]] eqn:Ep.
  { unfold estimate_leaf_wetness. cbv zeta.
    apply scalars_pore_raise in Ep as [E1|(d & E1 & E2)].
    - by rewrite (bind_py_raise _ _ _ _ E1).
    - by rewrite (bind_py _ _ _ _ E1), (bind_py_raise _ _ _ _ E2). }
  destruct (scalars_pore_inv _ _ _ _ Ep) as [E1 E2].
  cbn [mbind exn_bind].
  destruct (columns df !! "AIR_TEMP_F") as [cT|] eqn:HT.
  2:{ rewrite (data_missing _ _ HT). unfold estimate_leaf_wetness. cbv zeta.
      rewrite (bind_py _ _ _ _ E1), (bind_py _ _ _ _ E2).
      raise_here. done. }
  rewrite (data_lookup _ _ _ HT). rewrite (H1 _ eq_refl) in HT.
  destruct (columns df !! "DEWPOINT_F") as [cD|] eqn:HD.
  2:{ rewrite (data_missing _ _ HD). unfold estimate_leaf_wetness. cbv zeta.
      rewrite (bind_py _ _ _ _ E1), (bind_py _ _ _ _ E2).
      step raws. raise_here. done. }
  rewrite (data_lookup _ _ _ HD). rewrite (H2 _ eq_refl) in HD.
  destruct (columns df !! "RELATIVE_HUMIDITY_%") as [cR|] eqn:HR.
  2:{ rewrite (data_missing _ _ HR). unfold estimate_leaf_wetness. cbv zeta.
      rewrite (bind_py _ _ _ _ E1), (bind_py _ _ _ _ E2).
      do 6 step raws. raise_here. done. }
  rewrite (data_lookup _ _ _ HR). rewrite (H3 _ eq_refl) in HR.
  destruct (columns df !! "WIND_SPEED_2M_MPH") as [cW|] eqn:HW.
  2:{ rewrite (data_missing _ _ HW). unfold estimate_leaf_wetness. cbv zeta.
      rewrite (bind_py _ _ _ _ E1), (bind_py _ _ _ _ E2).
      do 7 step raws. raise_here. done. }
  rewrite (data_lookup _ _ _ HW). rewrite (H4 _ eq_refl) in HW.
  cbn [mbind exn_bind].
  destruct (scalars_wind m config) as [x|[[[qc qr] qa] co]] eqn:Ew.
  { unfold estimate_leaf_wetness. cbv zeta.
    rewrite (bind_py _ _ _ _ E1), (bind_py _ _ _ _ E2).
    do 8 step raws.
    apply scalars_wind_raise in Ew
      as [E3|(a & E3 & [E4|(b & E4 & [E5|(c' & E5 & E6)])])].
    - by rewrite (bind_py_raise _ _ _ _ E3).
    - by rewrite (bind_py _ _ _ _ E3), (bind_py_raise _ _ _ _ E4).
    - by rewrite (bind_py _ _ _ _ E3), (bind_py _ _ _ _ E4), (bind_py_raise _ _ _ _ E5).
    - by rewrite (bind_py _ _ _ _ E3), (bind_py _ _ _ _ E4), (bind_py _ _ _ _ E5),
        (bind_py_raise _ _ _ _ E6). }
  destruct (columns df !! "PRECIP_INCHES") as [cP|] eqn:HP.
  2:{ rewrite (data_missing _ _ HP). unfold estimate_leaf_wetness. cbv zeta.
      destruct (scalars_wind_inv _ _ _ _ _ _ Ew) as (E3 & E4 & E5 & E6).
      rewrite (bind_py _ _ _ _ E1), (bind_py _ _ _ _ E2).
      do 8 step raws.
      rewrite (bind_py _ _ _ _ E3), (bind_py _ _ _ _ E4), (bind_py _ _ _ _ E5),
        (bind_py _ _ _ _ E6).
      do 17 step raws. raise_here. done. }
  rewrite (data_lookup _ _ _ HP).
  rewrite (estimate_run m config df (mk_scalars (d, r) (qc, qr, qa, co))); [done|done|..].
  - unfold has_raw_columns, raw_names. repeat constructor; by eexists.
  - unfold scalars. by rewrite Ep, Ew.
Qed.

(** ** Comparisons of binary64 numbers *)

Lemma SFcompare_antisym (x y : spec_float) :
  SFcompare y x = option_map CompOpp (SFcompare x y).
Proof.
  destruct x as [sx|sx| |sx mx ex], y as [sy|sy| |sy my ey]; simpl; try done;
    try (by destruct sx); try (by destruct sy); try (by destruct sx, sy).
  destruct sx, sy; simpl; try done.
  - rewrite (Z.compare_antisym ex ey). destruct (ex ?= ey)%Z; simpl; try done.
    f_equal. rewrite CompOpp_involutive.
    change PosDef.Pos.compare_cont with Pos.compare_cont.
    apply (Pos.compare_cont_antisym my mx Eq).
  - rewrite (Z.compare_antisym ex ey). destruct (ex ?= ey)%Z; simpl; try done.
    f_equal. change PosDef.Pos.compare_cont with Pos.compare_cont.
    symmetry. apply (Pos.compare_cont_antisym mx my Eq).
Qed.

Module F64Facts.

Lemma ltb_antisym x y : (x <? y)%F = true -> (y <? x)%F = false.
Proof.
  unfold F64.ltb, SFltb. rewrite (SFcompare_antisym x y).
  by destruct (SFcompare x y) as [[]|].
Qed.

Lemma leb_not_gtb x y : (x <=? y)%F = true -> (x >? y)%F = false.
Proof.
  unfold F64.leb, F64.gtb, SFleb, SFltb. rewrite (SFcompare_antisym x y).
  by destruct (SFcompare x y) as [[]|].
Qed.

Lemma geb_not_ltb x y : (x >=? y)%F = true -> (x <? y)%F = false.
Proof. unfold F64.geb. intros H. by apply leb_not_gtb in H. Qed.

Lemma eqb_not_gtb x y : (x =? y)%F = true -> (x >? y)%F = false.
Proof.
  unfold F64.eqb, F64.gtb, SFeqb, SFltb. rewrite (SFcompare_antisym x y).
  by destruct (SFcompare x y) as [[]|].
Qed.

(** A number above zero is not NaN, carries no sign and is not below zero. *)
Lemma gtb_zero x :
  (x >? F64.zero)%F = true ->
  F64.is_nan x = false /\ F64.signbit x = false /\ (x <? F64.zero)%F = false.
Proof. by destruct x as [[]|[]| |[] ? ?]. Qed.

(** The floor at zero, [np.where(x > 0, x, 0)], is never NaN or negative. *)
Lemma floor_at_zero x :
  let w := if (x >? F64.zero)%F then x else F64.zero in
  F64.is_nan w = false /\ F64.signbit w = false /\ (w <? F64.zero)%F = false.
Proof.
  simpl. destruct (x >? F64.zero)%F eqn:E; [by apply gtb_zero|done].
Qed.




Lemma same_eq x y : F64.same x y = true -> x = y.
Proof.
  destruct x as [a|a| |s m e], y as [b|b| |s' m' e']; simpl; try done.
  - by intros ->%Bool.eqb_prop.
  - by intros ->%Bool.eqb_prop.
  - intros [[->%Bool.eqb_prop ->%Pos.eqb_eq]%andb_prop ->%Z.eqb_eq]%andb_prop. done.
Qed.

(** Subtracting a zero from a finite number that is not zero changes nothing. *)
Lemma sub_zero_r x z :
  F64.is_finite x = true -> F64.is_zero x = false -> F64.is_zero z = true ->
  F64.sub x z = x.
Proof. by destruct x, z. Qed.

End F64Facts.

(** ** Statements keep the frame well formed and its raw columns untouched *)

Lemma sized_data k : sized (data k).
Proof.
  intros df v Hwf. unfold data.
  destruct (columns df !! k) eqn:Hk; [|done]. intros [= <-]. by apply (Hwf k).
Qed.

Lemma sized_map {A B} (f : A -> B) e : sized e -> sized (e_map (fmap f) e).
Proof.
  intros He df v Hwf. unfold e_map. destruct (e df) eqn:Hd; [done|].
  intros [= <-]. rewrite length_fmap. by apply He.
Qed.

Lemma sized_map2 {A B C} (f : A -> B -> C) a b :
  sized a -> sized b -> sized (e_map2 (zip_with f) a b).
Proof.
  intros Ha Hb df v Hwf. unfold e_map2.
  destruct (a df) eqn:Hda; [done|]. destruct (b df) eqn:Hdb; [done|].
  intros [= <-]. rewrite length_zip_with.
  rewrite (Ha _ _ Hwf Hda), (Hb _ _ Hwf Hdb). lia.
Qed.

Lemma for_each_length {A B} (f : A -> exn + B) l v :
  for_each f l = inr v -> length v = length l.
Proof.
  revert v. induction l as [|a l IH]; intros v; simpl.
  - by intros [= <-].
  - destruct (f a); [done|]. destruct (for_each f l); [done|].
    intros [= <-]. simpl. f_equal. by apply IH.
Qed.

Lemma sized_frame_apply f : sized (frame_apply f).
Proof.
  intros df v _ H. unfold frame_apply in H.
  apply for_each_length in H. by rewrite length_seq in H.
Qed.

Lemma keeps_py {A} (r : exn + A) : keeps (py r).
Proof. intros df Hwf. by simpl. Qed.

Lemma keeps_assign k e : k ∉ raw_names -> sized e -> keeps (assign k e).
Proof.
  intros Hk He df Hwf. unfold assign.
  destruct (e df) as [|v] eqn:Hv; simpl; [done|].
  split; [|split; [done|]].
  - intros k' col. unfold setcol; simpl.
    destruct (decide (k = k')) as [->|Hne].
    + rewrite lookup_insert_eq. intros [= <-]. by apply He.
    + rewrite lookup_insert_ne by done. apply Hwf.
  - intros k' Hk'. rewrite lookup_insert_ne; [done|]. by intros ->.
Qed.

Lemma keeps_bind {A B} (c : M A) (f : A -> M B) :
  keeps c -> (forall a, keeps (f a)) -> keeps (c ≫= f).
Proof.
  intros Hc Hf df Hwf. unfold mbind, M_bind.
  destruct (Hc df Hwf) as (Hwf1 & Hn1 & Hr1).
  destruct (c df) as [df1 [x|a]]; simpl in *; [done|].
  destruct (Hf a df1 Hwf1) as (Hwf2 & Hn2 & Hr2).
  split; [done|]. split; [congruence|].
  intros k Hk. rewrite Hr2 by done. by apply Hr1.
Qed.

Lemma keeps_to_dict k1 k2 k3 k4 k5 k6 : keeps (to_dict_records k1 k2 k3 k4 k5 k6).
Proof. intros df Hwf. by simpl. Qed.

Ltac solve_sized :=
  unfold vv, sv, np_exp, np_power, lt_s, gt_s, np_where, np_where_const, series_apply;
  unfold vs;
  repeat first [ apply sized_map2 | apply sized_map | apply sized_data
               | apply sized_frame_apply ].

Ltac not_raw :=
  let H := fresh in
  unfold raw_names; rewrite !elem_of_cons, elem_of_nil; intros H;
  repeat (destruct H as [H|H]; [discriminate H|]); exact H.

(** Every statement of the estimator assigns a derived column of one entry
    per row: no raw column is ever written. *)
Lemma estimate_keeps (m : Libm) (config : Cfg.t) :
  keeps (estimate_leaf_wetness m config).
Proof.
  unfold estimate_leaf_wetness. cbv zeta.
  repeat first
    [ apply keeps_to_dict
    | apply keeps_bind;
      [ first [ apply keeps_py | apply keeps_assign; [ not_raw | solve_sized ] ]
      | intros ? ] ].
Qed.

(** ** The rows of a call that returns *)

Lemma raw_table_lookup df i :
  i < nrows df -> raw_table df !! i = Some (raw_row df i).
Proof.
  intros Hi. unfold raw_table. rewrite list_lookup_fmap, lookup_seq_lt by done. done.
Qed.

Lemma raw_table_lookup_inv df i raw :
  raw_table df !! i = Some raw -> i < nrows df /\ raw = raw_row df i.
Proof.
  intros H. assert (i < nrows df) as Hi.
  { apply lookup_lt_Some in H. by rewrite length_raw_table in H. }
  rewrite raw_table_lookup in H by done. split; [done|congruence].
Qed.

(** A call that returns: the raw columns were there, the scalars raised
    nothing, and the frame and the records are those of [estimate_run]. *)
Lemma estimate_returns m config df df' out :
  frame_wf df ->
  estimate_leaf_wetness m config df = (df', inr out) ->
  exists sc, scalars m config = inr sc /\ has_raw_columns df
    /\ df' = final_frame m config sc df
    /\ out = RowSem.publish m config sc <$> raw_table df.
Proof.
  intros Hwf Hrun.
  pose proof (estimate_result m config df Hwf) as Hres.
  rewrite Hrun in Hres. simpl in Hres. unfold outcome in Hres.
  destruct (scalars_pore m config) as [|p] eqn:Ep; [discriminate|].
  cbn [mbind exn_bind] in Hres.
  unfold data in Hres.
  destruct (columns df !! "AIR_TEMP_F") eqn:HT; [|discriminate].
  destruct (columns df !! "DEWPOINT_F") eqn:HD; [|discriminate].
  destruct (columns df !! "RELATIVE_HUMIDITY_%") eqn:HR; [|discriminate].
  destruct (columns df !! "WIND_SPEED_2M_MPH") eqn:HW; [|discriminate].
  cbn [mbind exn_bind] in Hres.
  destruct (scalars_wind m config) as [|w] eqn:Ew; [discriminate|].
  cbn [mbind exn_bind] in Hres.
  destruct (columns df !! "PRECIP_INCHES") eqn:HP; [|discriminate].
  assert (has_raw_columns df) as Hraw.
  { unfold has_raw_columns, raw_names. repeat constructor; by eexists. }
  assert (scalars m config = inr (mk_scalars p w)) as Hsc.
  { unfold scalars. by rewrite Ep, Ew. }
  exists (mk_scalars p w). split; [done|]. split; [done|].
  rewrite (estimate_run m config df _ Hwf Hraw Hsc) in Hrun.
  by injection Hrun as <- <-.
Qed.

(** A column of the final frame, cell by cell. *)
Lemma final_cell m config sc df k g i :
  columns (final_frame m config sc df) !! k = Some (g <$> raw_table df) ->
  i < nrows df ->
  cell (final_frame m config sc df) k i = g (raw_row df i).
Proof.
  intros Hk Hi. unfold cell. rewrite Hk. simpl.
  by rewrite list_lookup_fmap, raw_table_lookup.
Qed.

Ltac final_col := unfold final_frame, derived_columns; cbn [foldl]; solve_lookup.

Lemma out_lookup m cfg sc df i r :
  (RowSem.publish m cfg sc <$> raw_table df) !! i = Some r ->
  i < nrows df /\ r = RowSem.publish m cfg sc (raw_row df i).
Proof.
  rewrite list_lookup_fmap. destruct (raw_table df !! i) as [raw|] eqn:E; [|done].
  apply raw_table_lookup_inv in E as [Hi ->]. by intros [= <-].
Qed.

(** One row of a call that returned: its record and its cells in the final frame. *)
Tactic Notation "row_of_run" hyp(Hwf) hyp(Hrun) hyp(Hr) "as" ident(sc) ident(Hi) :=
  let Hsc := fresh "Hsc" in let Hraw := fresh "Hraw" in
  destruct (estimate_returns _ _ _ _ _ Hwf Hrun) as (sc & Hsc & Hraw & -> & ->);
  apply out_lookup in Hr as [Hi ->].

Ltac cell_is k g := rewrite (final_cell _ _ _ _ k g) by (first [final_col | done]).

(** ** Frames built from records *)

Lemma frame_of_rows_wf raws : frame_wf (frame_of_rows raws).
Proof.
  intros k col H. simpl in H.
  repeat (rewrite lookup_insert in H; case_decide;
          [injection H as <-; by rewrite length_fmap|]).
  by rewrite lookup_empty in H.
Qed.

Lemma frame_of_rows_has_raw raws : has_raw_columns (frame_of_rows raws).
Proof.
  unfold has_raw_columns, raw_names.
  repeat constructor; eexists; simpl;
    repeat (rewrite lookup_insert_ne by done); apply lookup_insert_eq.
Qed.

Lemma raw_table_frame_of_rows raws : raw_table (frame_of_rows raws) = raws.
Proof.
  apply list_eq. intros i. unfold raw_table. rewrite list_lookup_fmap.
  simpl. destruct (decide (i < length raws)) as [Hi|Hi].
  - rewrite lookup_seq_lt by done. simpl.
    destruct (lookup_lt_is_Some_2 raws i Hi) as [raw Hraw]. rewrite Hraw. f_equal.
    unfold raw_row, cell. simpl.
    repeat (rewrite lookup_insert_ne by done); rewrite lookup_insert_eq; simpl.
    do 4 (repeat (rewrite lookup_insert_ne by done); rewrite lookup_insert_eq; simpl).
    rewrite !list_lookup_fmap, Hraw. simpl. by destruct raw.
  - rewrite lookup_seq_ge by lia. simpl. symmetry. apply lookup_ge_None. lia.
Qed.

(** ** The result depends on the raw columns only *)

Lemma raw_table_ext df1 df2 :
  nrows df1 = nrows df2 ->
  (forall k, k ∈ raw_names -> columns df1 !! k = columns df2 !! k) ->
  raw_table df1 = raw_table df2.
Proof.
  intros Hn Hk. unfold raw_table. rewrite Hn. apply list_fmap_ext. intros _ i _.
  unfold raw_row, cell.
  rewrite !(Hk "AIR_TEMP_F"), !(Hk "DEWPOINT_F"), !(Hk "RELATIVE_HUMIDITY_%"),
    !(Hk "WIND_SPEED_2M_MPH"), !(Hk "PRECIP_INCHES") by (unfold raw_names; set_solver).
  done.
Qed.

Lemma outcome_ext m cfg df1 df2 :
  nrows df1 = nrows df2 ->
  (forall k, k ∈ raw_names -> columns df1 !! k = columns df2 !! k) ->
  outcome m cfg df1 = outcome m cfg df2.
Proof.
  intros Hn Hk. unfold outcome, data.
  rewrite (raw_table_ext df1 df2 Hn Hk).
  rewrite !(Hk "AIR_TEMP_F"), !(Hk "DEWPOINT_F"), !(Hk "RELATIVE_HUMIDITY_%"),
    !(Hk "WIND_SPEED_2M_MPH"), !(Hk "PRECIP_INCHES") by (unfold raw_names; set_solver).
  done.
Qed.

(** ** Reordering rows *)

Lemma reorder_fmap {A B} (f : A -> B) (p : list nat) (l : list A) :
  reorder p (f <$> l) = f <$> reorder p l.
Proof.
  unfold reorder. induction p as [|i p IH]; csimpl; [done|].
  rewrite list_lookup_fmap, IH. by destruct (l !! i).
Qed.

Lemma reorder_seq_app {A} (pre l : list A) :
  reorder (seq (length pre) (length l)) (pre ++ l) = l.
Proof.
  unfold reorder. revert pre. induction l as [|a l IH]; intros pre; simpl; [done|].
  rewrite list_lookup_middle by done. simpl. f_equal.
  rewrite (cons_middle a pre l), app_assoc.
  replace (S (length pre)) with (length (pre ++ [a])) by (rewrite length_app; simpl; lia).
  apply IH.
Qed.

Lemma reorder_seq {A} (l : list A) : reorder (seq 0 (length l)) l = l.
Proof. apply (reorder_seq_app [] l). Qed.

Lemma reorder_Permutation {A} (p : list nat) (l : list A) :
  p ≡ₚ seq 0 (length l) -> reorder p l ≡ₚ l.
Proof.
  intros Hp. unfold reorder. rewrite Hp. fold (reorder (seq 0 (length l)) l).
  by rewrite reorder_seq.
Qed.

(** ** Missing columns *)

Lemma data_first_missing df :
  match first_missing df with
  | Some k => k ∈ raw_names /\ columns df !! k = None
  | None => has_raw_columns df
  end.
Proof.
  unfold first_missing, raw_names, has_raw_columns. simpl.
  repeat (case_bool_decide; [split; [set_solver|done]|]).
  unfold raw_names. repeat constructor; by apply not_eq_None_Some.
Qed.

Lemma frame_without_dewpoint_wf : frame_wf frame_without_dewpoint.
Proof.
  intros k col H. simpl in H. apply lookup_delete_Some in H as [_ H].
  by apply (frame_of_rows_wf [row_mild] k col).
Qed.

(** ** Rows whose published fields are not finite *)



(** The estimated wetness is not always finite either: with a relative
    humidity of 200 % and a wind of 1e308 mph it is plus infinity. *)
Lemma wetness_overflows :
  match (estimate_leaf_wetness RefLibm.libm config (frame_of_rows [row_wet_overflow])).2 with
  | inr [r] => Out.Estimated_Leaf_Wetness_mm r = F64.inf
  | _ => False
  end.
Proof. by vm_compute. Qed.

(** ** Properties that hold for every accurate library

    A property of the row that depends on the values the library returns is
    proved by enumeration: each call is replaced by a variable that ranges
    over the numbers the accuracy assumption allows, and the property is
    evaluated for every choice. *)

Lemma forallb_elem (f : F64.t -> bool) (l : list F64.t) :
  forallb f l = true -> forall r, r ∈ l -> f r = true.
Proof.
  intros H r Hr. apply list_elem_of_In in Hr.
  by apply (proj1 (forallb_forall f l) H).
Qed.

Ltac f64_value t :=
  lazymatch t with
  | S754_zero _ => idtac
  | S754_infinity _ => idtac
  | S754_nan => idtac
  | S754_finite _ _ _ => idtac
  end.

Ltac eval_binop op a b :=
  f64_value a; f64_value b;
  let v := eval vm_compute in (op a b) in change (op a b) with v.

Ltac eval_closed_step :=
  match goal with
  | |- context [F64.add ?a ?b] => eval_binop F64.add a b
  | |- context [F64.sub ?a ?b] => eval_binop F64.sub a b
  | |- context [F64.mul ?a ?b] => eval_binop F64.mul a b
  | |- context [F64.div ?a ?b] => eval_binop F64.div a b
  | |- context [F64.ltb ?a ?b] => eval_binop F64.ltb a b
  | |- context [F64.gtb ?a ?b] => eval_binop F64.gtb a b
  | |- context [F64.leb ?a ?b] => eval_binop F64.leb a b
  | |- context [F64.geb ?a ?b] => eval_binop F64.geb a b
  | |- context [F64.eqb ?a ?b] => eval_binop F64.eqb a b
  | |- context [F64.of_Z ?z] =>
      let v := eval vm_compute in (F64.of_Z z) in change (F64.of_Z z) with v
  | |- context [F64.is_zero ?a] =>
      f64_value a; let v := eval vm_compute in (F64.is_zero a) in change (F64.is_zero a) with v
  | |- context [F64.is_inf ?a] =>
      f64_value a; let v := eval vm_compute in (F64.is_inf a) in change (F64.is_inf a) with v
  end.

Ltac name_calls m :=
  repeat match goal with
  | |- context [libm_pow m ?a ?b] =>
      let r := fresh "r" in set (r := libm_pow m a b); clearbody r
  | |- context [libm_exp m ?a] =>
      let r := fresh "r" in set (r := libm_exp m a); clearbody r
  | |- context [libm_log m ?a] =>
      let r := fresh "r" in set (r := libm_log m a); clearbody r
  end.

Ltac reflect_ball :=
  match goal with
  | H : ?r ∈ ?l |- ?b = true =>
      is_var r;
      let f := eval pattern r in b in
      lazymatch f with ?g _ => revert r H; apply (forallb_elem g) end
  end.

Ltac by_enumeration := repeat reflect_ball; vm_compute; reflexivity.

Ltac eval_closed := repeat (eval_closed_step; cbv beta iota).

Ltac expose_defs :=
  cbv beta iota zeta delta
    [RowSem.AIR_TEMP_C RowSem.DEWPOINT_C RowSem.DPD RowSem.SVP RowSem.Slope_kPa
     RowSem.Slope_mbar RowSem.AVP RowSem.Uz RowSem.Uc RowSem.Transfer_Coefficient
     RowSem.Ep RowSem.E_cm_min RowSem.Wind_Speed_m_s RowSem.Reynolds_Number
     RowSem.Nusselt_Number RowSem.rB RowSem.hLW RowSem.hH RowSem.Slope_Pa_K RowSem.hET
     RowSem.Leaf_Heat_Transfer_Coefficient RowSem.Rhe RowSem.Potential_condensation_g_s
     RowSem.Potential_condensation_mm_chain RowSem.Potential_condensation_mm
     RowSem.Rain_Interception RowSem.Evaporation RowSem.Estimated_Leaf_Wetness_unfloored
     RowSem.Estimated_Leaf_Wetness
     scalars scalars_pore scalars_wind mk_scalars py_pow_int py_div
     mbind exn_bind mret exn_ret
     wind_profile_base calm_Reynolds
     Surface_Area W c D Zo config
     Cfg.Z_reference Cfg.Zc Cfg.alpha Cfg.LAI Cfg.Wmax Cfg.Wf Cfg.shape_scale_film_cf
     Cfg.shape_scale_drop_cd Cfg.dimension_of_leaf_m Cfg.width_of_leaf_m Cfg.n
     Cfg.mean_length_of_pore_l Cfg.diameter_of_pore_d Cfg.critical_DPD
     Cfg.psychr_constant_mbar Cfg.density_of_air_g_cm3 Cfg.specific_heat_of_air_Jg_C
     Cfg.latent_heat_of_vaporization_J_g Cfg.kinematic_viscosity_of_air Cfg.emissivity
     Cfg.stefan_boltzmann_constant Cfg.density_of_air_kg_m3 Cfg.specific_heat_of_air_J_kg_K
     Cfg.diffusion_coefficient_of_water_vapor_D Cfg.latent_heat_of_condensation_J_kg
     Cfg.psychrometer_constant_Pa_K
     Raw.AIR_TEMP_F Raw.DEWPOINT_F Raw.RELATIVE_HUMIDITY Raw.WIND_SPEED_2M_MPH
     Raw.PRECIP_INCHES row_dew np_pi
     rS d_sq q_c q_ref q_a corr
     Z.eqb Z.ltb Z.compare Z.odd andb].

Ltac expose := expose_defs; eval_closed.

Lemma py_div_inv x y v : py_div x y = inr v -> v = (x / y)%F.
Proof. unfold py_div. destruct (F64.is_zero y); [done|]. by intros [= <-]. Qed.

Lemma config_scalars_value m sc : scalars m config = inr sc -> sc = config_scalars m.
Proof.
  intros H. apply scalars_inv in H as (E1 & E2 & E3 & E4 & E5 & E6).
  apply py_div_inv in E2, E3, E4, E5.
  assert (d_sq sc = libm_pow m (Cfg.diameter_of_pore_d config) (f64 2)) as Hd.
  { revert E1. expose. name_calls m. destruct (F64.is_inf r); [done|]. by intros [= <-]. }
  assert (corr sc = libm_pow m wind_profile_base (f64 (-2))) as Hc.
  { revert E6. rewrite E5. expose. name_calls m.
    destruct (F64.is_inf r); [done|]. by intros [= <-]. }
  destruct sc as [d r a b c' co]. simpl in *. subst. reflexivity.
Qed.

Lemma config_scalars_ok m :
  scalar_calls_accurate m -> scalars m config = inr (config_scalars m).
Proof.
  intros Hacc.
  assert (is_ok (scalars m config) = true) as Hok.
  { revert Hacc. unfold scalar_calls_accurate, pow_accurate.
    expose. name_calls m. intros [H1 H2]. by_enumeration. }
  destruct (scalars m config) as [|sc] eqn:Hsc; [done|].
  by rewrite (config_scalars_value m sc Hsc).
Qed.

Lemma calm_wind_speed raw :
  (Raw.WIND_SPEED_2M_MPH raw <=? f64 0)%F = true ->
  RowSem.Wind_Speed_m_s raw = f64 0.001.
Proof.
  intros H. unfold RowSem.Wind_Speed_m_s. by rewrite (F64Facts.leb_not_gtb _ _ H).
Qed.

Lemma calm_chain_finite m :
  pow_accurate m calm_Reynolds (f64 0.6) ->
  F64.is_finite calm_Reynolds
  && F64.is_finite (f64 0.72 * libm_pow m calm_Reynolds (f64 0.6))%F
  && F64.is_finite
       (Cfg.dimension_of_leaf_m config
        / (f64 0.0000215 * (f64 0.72 * libm_pow m calm_Reynolds (f64 0.6))))%F
  = true.
Proof.
  unfold pow_accurate. expose. name_calls m. intros H. by_enumeration.
Qed.

Lemma ref_scalar_calls : scalar_calls_accurate RefLibm.libm.
Proof. split; by vm_compute; set_solver. Qed.

Lemma dew_row_condensation m :
  row_calls_accurate m row_dew ->
  condensation_facts m (config_scalars m) row_dew = true.
Proof.
  intros ([Hd _] & He & Hp2 & Hp3 & Hp6 & _). revert Hd He Hp2 Hp3 Hp6.
  unfold exp_accurate, pow_accurate, condensation_facts, config_scalars.
  expose. name_calls m. intros Hd He Hp2 Hp3 Hp6.
  by_enumeration.
Qed.

Lemma dew_row_Uc m :
  scalar_calls_accurate m ->
  log_accurate m (q_c (config_scalars m)) ->
  log_accurate m (q_ref (config_scalars m)) ->
  RowSem.Uc m (config_scalars m) row_dew = F64.zero.
Proof.
  intros [_ Hc] H1 H2. apply F64Facts.same_eq. revert Hc H1 H2.
  unfold log_accurate, pow_accurate, config_scalars.
  expose. name_calls m. intros Hc H1 H2.
  by_enumeration.
Qed.

Lemma dew_row_evaporation m :
  row_calls_accurate m row_dew ->
  evaporation_facts m (config_scalars m) row_dew = true.
Proof.
  intros (Hs & He & Hp2 & _ & _ & Hl1 & Hl2 & Hp5).
  pose proof (dew_row_Uc m Hs Hl1 Hl2) as HUc. rewrite HUc in Hp5.
  unfold evaporation_facts, RowSem.Evaporation, RowSem.E_cm_min, RowSem.Ep,
    RowSem.Transfer_Coefficient.
  rewrite !HUc. clear HUc Hs Hl1 Hl2. revert He Hp2 Hp5.
  unfold exp_accurate, pow_accurate.
  expose. name_calls m. intros He Hp2 Hp5.
  by_enumeration.
Qed.

(** ** The columns of the final frame *)

Lemma foldl_setcol_lookup (tab : list Raw.t) cols df k :
  columns (foldl (fun d '(k, g) => setcol k (g <$> tab) d) df cols) !! k
  = match last_assigned cols k with
    | Some g => Some (g <$> tab)
    | None => columns df !! k
    end.
Proof.
  revert df. induction cols as [|[k' g] rest IH]; intros df; [done|].
  cbn [foldl last_assigned]. rewrite IH.
  destruct (last_assigned rest k); [done|].
  unfold setcol. cbn [columns]. rewrite lookup_insert. by destruct (decide (k' = k)).
Qed.

Lemma final_cell_last m cfg sc df k g i :
  last_assigned (derived_columns m cfg sc) k = Some g ->
  i < nrows df ->
  cell (final_frame m cfg sc df) k i = g (raw_row df i).
Proof.
  intros Hk Hi. apply final_cell; [|done].
  unfold final_frame. by rewrite foldl_setcol_lookup, Hk.
Qed.

Lemma final_frame_other m cfg sc df k :
  last_assigned (derived_columns m cfg sc) k = None ->
  columns (final_frame m cfg sc df) !! k = columns df !! k.
Proof. intros Hk. unfold final_frame. by rewrite foldl_setcol_lookup, Hk. Qed.

(** ** The reference library and the example frame *)

Lemma ulp_ball_center k x : x ∈ ulp_ball k x.
Proof. unfold ulp_ball. apply elem_of_app. right. left. Qed.

Lemma ref_row_calls raw : row_calls_accurate RefLibm.libm raw.
Proof. repeat split; apply ulp_ball_center. Qed.

Lemma ref_config_scalars :
  scalars RefLibm.libm config = inr (config_scalars RefLibm.libm).
Proof. apply config_scalars_ok, ref_scalar_calls. Qed.

Lemma example_run :
  estimate_leaf_wetness RefLibm.libm config example_frame
  = (final_frame RefLibm.libm config (config_scalars RefLibm.libm) example_frame,
     inr (RowSem.publish RefLibm.libm config (config_scalars RefLibm.libm)
            <$> [row_mild; row_dew; row_freezing])).
Proof.
  rewrite (estimate_run RefLibm.libm config example_frame (config_scalars RefLibm.libm)
             (frame_of_rows_wf _) (frame_of_rows_has_raw _) ref_config_scalars).
  reflexivity.
Qed.

Lemma forallb_Forall (f : F64.t -> bool) l :
  forallb f l = true -> Forall (fun x => f x = true) l.
Proof. intros H. apply Forall_forall. intros x Hx. apply (forallb_elem f l H x Hx). Qed.

Lemma raw_row_frame_of_rows raws i raw :
  raws !! i = Some raw -> raw_row (frame_of_rows raws) i = raw.
Proof.
  intros H. assert (i < nrows (frame_of_rows raws)) as Hi by (by apply lookup_lt_Some in H).
  pose proof (raw_table_lookup _ _ Hi) as Hl.
  rewrite raw_table_frame_of_rows in Hl. congruence.
Qed.

Lemma dew_row_wetness m :
  row_calls_accurate m row_dew ->
  let w := RowSem.Estimated_Leaf_Wetness m config (config_scalars m) row_dew in
  w = (RowSem.Potential_condensation_mm m config (config_scalars m) row_dew
       + RowSem.Rain_Interception row_dew)%F
  \/ w = f64 0.
Proof.
  intros Hacc. cbv zeta.
  pose proof (dew_row_condensation m Hacc) as Hc.
  pose proof (dew_row_evaporation m Hacc) as He.
  unfold condensation_facts in Hc. unfold evaporation_facts in He.
  apply andb_prop in Hc as [Hc Hnz]. apply andb_prop in Hc as [Hc _].
  apply andb_prop in Hc as [Hc _]. apply andb_prop in He as [_ Hz].
  apply forallb_Forall in Hc.
  assert (F64.is_finite (RowSem.Potential_condensation_mm m config (config_scalars m) row_dew
                         + RowSem.Rain_Interception row_dew)%F = true) as Hfin.
  { rewrite Forall_forall in Hc. apply Hc. do 21 right. left. }
  apply negb_true_iff in Hnz.
  unfold RowSem.Estimated_Leaf_Wetness, RowSem.Estimated_Leaf_Wetness_unfloored.
  assert ((Raw.AIR_TEMP_F row_dew >? f64 32)%F = true) as -> by (vm_compute; reflexivity).
  rewrite (F64Facts.sub_zero_r _ _ Hfin Hnz Hz).
  destruct (_ >? _)%F; [left|right]; reflexivity.
Qed.

Ltac solve_elem := repeat first [ apply list_elem_of_here | apply list_elem_of_further ].

(** * The claims *)

(** C1. For every row of a call that returns, the published estimated leaf
    wetness is [(potential condensation + rain interception) - evaporation]
    floored at zero when the air temperature is above 32 F, and zero when it
    is not; it is zero whenever the air temperature is at most 32 F, and it
    is never negative (nor NaN). The condensation that enters the sum is the
    published one. *)
Theorem C1_estimated_leaf_wetness (m : Libm) (cfg : Cfg.t) (df df' : DataFrame)
    (out : list Out.t) (i : nat) (r : Out.t) :
  frame_wf df ->
  estimate_leaf_wetness m cfg df = (df', inr out) ->
  out !! i = Some r ->
  let t := cell df "AIR_TEMP_F" i in
  let pc := cell df' "Potential condensation of dew (mm)" i in
  let ri := cell df' "Rain Interception (mm)" i in
  let ev := cell df' "Evaporation (mm)" i in
  let w := Out.Estimated_Leaf_Wetness_mm r in
  Out.Potential_condensation_of_dew_mm r = pc
  /\ w = (if (t >? f64 32)%F
          then (if ((pc + ri) - ev >? f64 0)%F then ((pc + ri) - ev)%F else f64 0)
          else f64 0)
  /\ ((t <=? f64 32)%F = true -> w = f64 0)
  /\ F64.is_nan w = false
  /\ (w <? f64 0)%F = false.
Proof.
  intros Hwf Hrun Hr. row_of_run Hwf Hrun Hr as sc Hi. cbv zeta.
  cell_is "Potential condensation of dew (mm)" (RowSem.Potential_condensation_mm m cfg sc).
  cell_is "Rain Interception (mm)" RowSem.Rain_Interception.
  cell_is "Evaporation (mm)" (RowSem.Evaporation m cfg sc).
  cbn [Out.Potential_condensation_of_dew_mm Out.Estimated_Leaf_Wetness_mm RowSem.publish].
  set (raw := raw_row df i).
  assert (cell df "AIR_TEMP_F" i = Raw.AIR_TEMP_F raw) as -> by done.
  assert (RowSem.Estimated_Leaf_Wetness m cfg sc raw
          = if (Raw.AIR_TEMP_F raw >? f64 32)%F
            then (if ((RowSem.Potential_condensation_mm m cfg sc raw
                       + RowSem.Rain_Interception raw)
                      - RowSem.Evaporation m cfg sc raw >? f64 0)%F
                  then ((RowSem.Potential_condensation_mm m cfg sc raw
                         + RowSem.Rain_Interception raw)
                        - RowSem.Evaporation m cfg sc raw)%F
                  else f64 0)
            else f64 0) as Hw.
  { unfold RowSem.Estimated_Leaf_Wetness, RowSem.Estimated_Leaf_Wetness_unfloored.
    by destruct (Raw.AIR_TEMP_F raw >? _)%F. }
  split; [done|]. split; [exact Hw|]. split.
  - intros Hle. rewrite Hw. by rewrite (F64Facts.leb_not_gtb _ _ Hle).
  - unfold RowSem.Estimated_Leaf_Wetness.
    destruct (F64Facts.floor_at_zero (RowSem.Estimated_Leaf_Wetness_unfloored m cfg sc raw))
      as (Hn & _ & Hlt).
    done.
Qed.

Lemma C1_estimated_leaf_wetness_witness :
  Out.Estimated_Leaf_Wetness_mm
    (RowSem.publish RefLibm.libm config (config_scalars RefLibm.libm) row_freezing)
  = f64 0.
Proof.
  pose proof (C1_estimated_leaf_wetness RefLibm.libm config example_frame _ _ 2 _
                (frame_of_rows_wf _) example_run eq_refl) as H.
  cbv zeta in H. destruct H as (_ & _ & H & _).
  apply H. vm_compute. reflexivity.
Defined.

(** C2. For every row of a call that returns, the columns [AIR_TEMP_C],
    [DEWPOINT_C] and [DPD] hold the two temperatures in Celsius and their
    difference, the sensible heat exchange and the condensation rate are
    computed from the leaf heat transfer coefficient as in lines 150 to 153,
    and the published 'Potential condensation of dew (mm)' is zero when
    [DPD >= critical_DPD] and the value of the chain (line 154) when
    [DPD < critical_DPD]. The constant is 1.845. *)
Theorem C2_dew_point_depression_cutoff (m : Libm) (cfg : Cfg.t) (df df' : DataFrame)
    (out : list Out.t) (i : nat) (r : Out.t) :
  frame_wf df ->
  estimate_leaf_wetness m cfg df = (df', inr out) ->
  out !! i = Some r ->
  let tc := cell df' "AIR_TEMP_C" i in
  let dc := cell df' "DEWPOINT_C" i in
  let dpd := cell df' "DPD" i in
  let h := cell df' "Leaf Heat Transfer Coefficient (W/m^2/K)" i in
  let rhe := cell df' "Rhe (J/s)" i in
  let gs := cell df' "Potential condensation of dew (g/s)" i in
  let pc := Out.Potential_condensation_of_dew_mm r in
  tc = ((cell df "AIR_TEMP_F" i - f64 32) * f64 5 / f64 9)%F
  /\ dc = ((cell df "DEWPOINT_F" i - f64 32) * f64 5 / f64 9)%F
  /\ dpd = (tc - dc)%F
  /\ rhe = (h * Surface_Area cfg * (tc - dc))%F
  /\ gs = (rhe / Cfg.latent_heat_of_condensation_J_kg cfg * f64 1000)%F
  /\ ((dpd >=? Cfg.critical_DPD cfg)%F = true -> pc = f64 0)
  /\ ((dpd <? Cfg.critical_DPD cfg)%F = true ->
      pc = (gs / (Surface_Area cfg * f64 10000) * f64 10 * f64 60 * f64 15 * f64 2)%F)
  /\ Cfg.critical_DPD config = f64 1.845.
Proof.
  intros Hwf Hrun Hr. row_of_run Hwf Hrun Hr as sc Hi. cbv zeta.
  cell_is "AIR_TEMP_C" RowSem.AIR_TEMP_C.
  cell_is "DEWPOINT_C" RowSem.DEWPOINT_C.
  cell_is "DPD" RowSem.DPD.
  cell_is "Leaf Heat Transfer Coefficient (W/m^2/K)"
    (RowSem.Leaf_Heat_Transfer_Coefficient m cfg sc).
  cell_is "Rhe (J/s)" (RowSem.Rhe m cfg sc).
  cell_is "Potential condensation of dew (g/s)" (RowSem.Potential_condensation_g_s m cfg sc).
  cbn [Out.Potential_condensation_of_dew_mm RowSem.publish].
  set (raw := raw_row df i).
  repeat split; try reflexivity.
  - intros Hge. unfold RowSem.Potential_condensation_mm.
    by rewrite (F64Facts.geb_not_ltb _ _ Hge).
  - intros Hlt. unfold RowSem.Potential_condensation_mm. by rewrite Hlt.
Qed.

Lemma C2_dew_point_depression_cutoff_witness :
  Out.Potential_condensation_of_dew_mm
    (RowSem.publish RefLibm.libm config (config_scalars RefLibm.libm) row_mild)
  = f64 0.
Proof.
  pose proof (C2_dew_point_depression_cutoff RefLibm.libm config example_frame _ _ 0 _
                (frame_of_rows_wf _) example_run eq_refl) as H.
  cbv zeta in H. destruct H as (_ & _ & _ & _ & _ & H & _).
  apply H. vm_compute. reflexivity.
Defined.

(** C3. For every row of a call that returns, the rain interception is 0.6
    whenever [PRECIP_INCHES > 0], whatever the amount, and 0 whenever
    [PRECIP_INCHES == 0]; it is never anything but 0.6 or 0. *)
Theorem C3_rain_interception (m : Libm) (cfg : Cfg.t) (df df' : DataFrame)
    (out : list Out.t) (i : nat) (r : Out.t) :
  frame_wf df ->
  estimate_leaf_wetness m cfg df = (df', inr out) ->
  out !! i = Some r ->
  let p := cell df "PRECIP_INCHES" i in
  let ri := cell df' "Rain Interception (mm)" i in
  ((p >? f64 0)%F = true -> ri = f64 0.6)
  /\ ((p =? f64 0)%F = true -> ri = f64 0)
  /\ (ri = f64 0.6 \/ ri = f64 0).
Proof.
  intros Hwf Hrun Hr. row_of_run Hwf Hrun Hr as sc Hi. cbv zeta.
  cell_is "Rain Interception (mm)" RowSem.Rain_Interception.
  set (raw := raw_row df i).
  assert (cell df "PRECIP_INCHES" i = Raw.PRECIP_INCHES raw) as -> by done.
  unfold RowSem.Rain_Interception. repeat split.
  - by intros ->.
  - intros H0. by rewrite (F64Facts.eqb_not_gtb _ _ H0).
  - destruct (_ >? _)%F; [by left|by right].
Qed.

Lemma C3_rain_interception_witness :
  cell (final_frame RefLibm.libm config (config_scalars RefLibm.libm) example_frame)
    "Rain Interception (mm)" 2
  = f64 0.6.
Proof.
  pose proof (C3_rain_interception RefLibm.libm config example_frame _ _ 2 _
                (frame_of_rows_wf _) example_run eq_refl) as H.
  cbv zeta in H. destruct H as (H & _).
  apply H. vm_compute. reflexivity.
Defined.




(** C5, as the code has it. The estimator validates nothing. On a
    well-formed frame, when the scalars raise nothing, a call raises
    [KeyError] with the name of the first raw column the frame lacks, in the
    order the source reads them, and no record is returned; when the frame
    has the five raw columns the call returns one record per row, whatever
    the cells hold. *)
Theorem C5_missing_field (m : Libm) (cfg : Cfg.t) (df : DataFrame) (sc : Scalars) :
  frame_wf df -> scalars m cfg = inr sc ->
  (estimate_leaf_wetness m cfg df).2
  = match first_missing df with
    | Some k => inl (KeyError k)
    | None => inr (RowSem.publish m cfg sc <$> raw_table df)
    end
  /\ (has_raw_columns df ->
      exists out, (estimate_leaf_wetness m cfg df).2 = inr out /\ length out = nrows df).
Proof.
  intros Hwf Hsc. split.
  - rewrite (estimate_result m cfg df Hwf). unfold outcome.
    destruct (scalars_parts _ _ _ Hsc) as [-> ->]. cbn [mbind exn_bind].
    unfold first_missing, raw_names, data. simpl.
    case_bool_decide as HT; [by rewrite HT|].
    destruct (columns df !! "AIR_TEMP_F"); [|done]. cbn [mbind exn_bind].
    case_bool_decide as HD; [by rewrite HD|].
    destruct (columns df !! "DEWPOINT_F"); [|done]. cbn [mbind exn_bind].
    case_bool_decide as HR; [by rewrite HR|].
    destruct (columns df !! "RELATIVE_HUMIDITY_%"); [|done]. cbn [mbind exn_bind].
    case_bool_decide as HW; [by rewrite HW|].
    destruct (columns df !! "WIND_SPEED_2M_MPH"); [|done]. cbn [mbind exn_bind].
    case_bool_decide as HP; [by rewrite HP|].
    destruct (columns df !! "PRECIP_INCHES"); [|done]. cbn [mbind exn_bind].
    by destruct sc.
  - intros Hraw. rewrite (estimate_run m cfg df sc Hwf Hraw Hsc). simpl.
    eexists. split; [done|]. by rewrite length_fmap, length_raw_table.
Qed.

Lemma C5_missing_field_witness :
  (estimate_leaf_wetness RefLibm.libm config frame_without_dewpoint).2
  = inl (KeyError "DEWPOINT_F").
Proof.
  destruct (C5_missing_field RefLibm.libm config frame_without_dewpoint _
              frame_without_dewpoint_wf ref_config_scalars) as [H _].
  rewrite H. reflexivity.
Defined.

(** C5 as stated does not hold: a call on a frame one of whose rows has no
    dew point (the cell is missing) raises nothing and returns records. *)
Lemma C5_counterexample :
  ~ (forall (m : Libm) (cfg : Cfg.t) (df : DataFrame),
       frame_wf df ->
       (exists k i, k ∈ raw_names /\ i < nrows df /\ missing_cell df k i = true) ->
       exists x, (estimate_leaf_wetness m cfg df).2 = inl x).
Proof.
  intros H.
  destruct (H RefLibm.libm config (frame_of_rows [row_mild; row_missing_dew])) as [x Hx].
  - apply frame_of_rows_wf.
  - exists "DEWPOINT_F", 1. split; [unfold raw_names; set_solver|]. split; [simpl; lia|].
    by vm_compute.
  - vm_compute in Hx. discriminate Hx.
Qed.

(** C6. With the constants [config], on a frame that has the five raw
    columns, for every row whose wind speed is zero or negative: the call
    raises nothing and returns one record per row, the converted wind speed
    of the row is the constant 0.001, its Reynolds number is the one of that
    speed, and its Reynolds number, Nusselt number and boundary layer
    resistance are finite. The library is assumed accurate at the three
    powers involved. *)
Theorem C6_zero_wind_floor (m : Libm) (df : DataFrame) (i : nat) :
  frame_wf df -> has_raw_columns df -> i < nrows df ->
  (cell df "WIND_SPEED_2M_MPH" i <=? f64 0)%F = true ->
  scalar_calls_accurate m ->
  pow_accurate m calm_Reynolds (f64 0.6) ->
  exists df' out,
    estimate_leaf_wetness m config df = (df', inr out)
    /\ length out = nrows df
    /\ cell df' "Wind Speed (m/s)" i = f64 0.001
    /\ cell df' "Reynolds Number" i = calm_Reynolds
    /\ F64.is_finite (cell df' "Reynolds Number" i) = true
    /\ F64.is_finite (cell df' "Nusselt Number" i) = true
    /\ F64.is_finite (cell df' "rB (s/m)" i) = true.
Proof.
  intros Hwf Hraw Hi Hwind Hsc Hpow.
  apply config_scalars_ok in Hsc.
  eexists _, _. split; [exact (estimate_run m config df _ Hwf Hraw Hsc)|].
  split; [by rewrite length_fmap, length_raw_table|].
  cell_is "Wind Speed (m/s)" RowSem.Wind_Speed_m_s.
  cell_is "Reynolds Number" (RowSem.Reynolds_Number config).
  cell_is "Nusselt Number" (RowSem.Nusselt_Number m config).
  cell_is "rB (s/m)" (RowSem.rB m config).
  set (raw := raw_row df i).
  assert (RowSem.Wind_Speed_m_s raw = f64 0.001) as Hw by (by apply calm_wind_speed).
  assert (RowSem.Reynolds_Number config raw = calm_Reynolds) as HRe.
  { unfold RowSem.Reynolds_Number. by rewrite Hw. }
  unfold RowSem.rB, RowSem.Nusselt_Number. rewrite HRe.
  pose proof (calm_chain_finite m Hpow) as Hfin.
  apply andb_prop in Hfin as [Hfin HrB]. apply andb_prop in Hfin as [HfRe HNu].
  split; [exact Hw|]. split; [reflexivity|]. split; [exact HfRe|].
  split; [exact HNu|exact HrB].
Qed.

Lemma C6_zero_wind_floor_witness :
  exists df' out,
    estimate_leaf_wetness RefLibm.libm config example_frame = (df', inr out)
    /\ length out = nrows example_frame
    /\ cell df' "Wind Speed (m/s)" 1 = f64 0.001
    /\ cell df' "Reynolds Number" 1 = calm_Reynolds
    /\ F64.is_finite (cell df' "Reynolds Number" 1) = true
    /\ F64.is_finite (cell df' "Nusselt Number" 1) = true
    /\ F64.is_finite (cell df' "rB (s/m)" 1) = true.
Proof.
  apply (C6_zero_wind_floor RefLibm.libm example_frame 1).
  - apply frame_of_rows_wf.
  - apply frame_of_rows_has_raw.
  - simpl. lia.
  - vm_compute. reflexivity.
  - apply ref_scalar_calls.
  - apply ulp_ball_center.
Defined.

(** C7. A call keeps no state but the frame it is given: on a well-formed
    frame, a second call with the same library and constants on the frame
    the first call has left behind (with its derived columns assigned)
    returns the same records, or raises the same exception, bit for bit. *)
Theorem C7_deterministic_stateless (m : Libm) (cfg : Cfg.t) (df : DataFrame) :
  frame_wf df ->
  let first := estimate_leaf_wetness m cfg df in
  let second := estimate_leaf_wetness m cfg first.1 in
  second.2 = first.2.
Proof.
  intros Hwf. cbv zeta.
  destruct (estimate_keeps m cfg df Hwf) as (Hwf1 & Hn1 & Hk1).
  rewrite (estimate_result m cfg _ Hwf1), (estimate_result m cfg _ Hwf).
  by apply outcome_ext.
Qed.

Lemma C7_deterministic_stateless_witness :
  (estimate_leaf_wetness RefLibm.libm config
     (estimate_leaf_wetness RefLibm.libm config example_frame).1).2
  = (estimate_leaf_wetness RefLibm.libm config example_frame).2.
Proof.
  exact (C7_deterministic_stateless RefLibm.libm config example_frame (frame_of_rows_wf _)).
Defined.

(** C8. Rows are independent: when the rows of a second frame are the rows
    of a first one taken in the order of a list of indices, and the call on
    the first frame returns, the call on the second returns the records of
    the first taken in that order, each record unchanged; when the indices
    are a permutation of all the rows, so are the records. *)
Theorem C8_row_independence (m : Libm) (cfg : Cfg.t) (df1 df2 : DataFrame)
    (p : list nat) (out1 : list Out.t) :
  frame_wf df1 -> frame_wf df2 -> has_raw_columns df2 ->
  raw_table df2 = reorder p (raw_table df1) ->
  (estimate_leaf_wetness m cfg df1).2 = inr out1 ->
  (estimate_leaf_wetness m cfg df2).2 = inr (reorder p out1)
  /\ (p ≡ₚ seq 0 (nrows df1) -> reorder p out1 ≡ₚ out1).
Proof.
  intros Hwf1 Hwf2 Hraw2 Hrows Hout1.
  destruct (estimate_leaf_wetness m cfg df1) as [df1' res1] eqn:Hrun1.
  simpl in Hout1. subst res1.
  destruct (estimate_returns _ _ _ _ _ Hwf1 Hrun1) as (sc & Hsc & Hraw1 & _ & ->).
  split.
  - rewrite (estimate_run m cfg df2 sc Hwf2 Hraw2 Hsc). simpl.
    by rewrite Hrows, reorder_fmap.
  - intros Hp. apply reorder_Permutation.
    by rewrite length_fmap, length_raw_table.
Qed.

Lemma C8_row_independence_witness :
  (estimate_leaf_wetness RefLibm.libm config
     (frame_of_rows [row_freezing; row_mild; row_dew])).2
  = inr (RowSem.publish RefLibm.libm config (config_scalars RefLibm.libm)
           <$> [row_freezing; row_mild; row_dew]).
Proof.
  assert (raw_table (frame_of_rows [row_freezing; row_mild; row_dew])
          = reorder [2; 0; 1] (raw_table example_frame)) as Hrows.
  { unfold example_frame. rewrite !raw_table_frame_of_rows. reflexivity. }
  assert ((estimate_leaf_wetness RefLibm.libm config example_frame).2
          = inr (RowSem.publish RefLibm.libm config (config_scalars RefLibm.libm)
                   <$> [row_mild; row_dew; row_freezing])) as Hout.
  { rewrite example_run. reflexivity. }
  destruct (C8_row_independence RefLibm.libm config example_frame _ [2; 0; 1] _
              (frame_of_rows_wf _) (frame_of_rows_wf _) (frame_of_rows_has_raw _)
              Hrows Hout) as [H _].
  exact H.
Defined.

(** C9. The published condensation is not floored: on a row whose dew point
    is above the air temperature (50 F and 59 F, calm, saturated, with rain)
    the estimator returns, every input and every derived quantity is finite,
    the dew point depression is negative and so below [critical_DPD], and
    the published 'Potential condensation of dew (mm)' is strictly negative,
    while the published 'Estimated Leaf Wetness (mm)' is not negative. The
    library is assumed accurate at the calls made for this row. *)
Theorem C9_condensation_not_floored (m : Libm) :
  row_calls_accurate m row_dew ->
  exists df' r,
    estimate_leaf_wetness m config (frame_of_rows [row_dew]) = (df', inr [r])
    /\ raw_finite row_dew = true
    /\ (Raw.DEWPOINT_F row_dew >? Raw.AIR_TEMP_F row_dew)%F = true
    /\ (cell df' "DPD" 0 <? f64 0)%F = true
    /\ (f64 0 <? Cfg.critical_DPD config)%F = true
    /\ Forall (fun kg => F64.is_finite (cell df' kg.1 0) = true)
         (derived_columns m config (config_scalars m))
    /\ record_finite r = true
    /\ Out.Potential_condensation_of_dew_mm r
       = cell df' "Potential condensation of dew (mm)" 0
    /\ (Out.Potential_condensation_of_dew_mm r <? f64 0)%F = true
    /\ (Out.Estimated_Leaf_Wetness_mm r <? f64 0)%F = false.
Proof.
  intros Hacc.
  pose proof (config_scalars_ok m (proj1 Hacc)) as Hsc.
  pose proof (dew_row_condensation m Hacc) as Hc.
  pose proof (dew_row_evaporation m Hacc) as He.
  pose proof (dew_row_wetness m Hacc) as Hw. cbv zeta in Hw.
  remember (frame_of_rows [row_dew]) as df eqn:Hdf.
  assert (frame_wf df) as Hwf by (rewrite Hdf; apply frame_of_rows_wf).
  assert (has_raw_columns df) as Hraw by (rewrite Hdf; apply frame_of_rows_has_raw).
  assert (raw_row df 0 = row_dew) as Hrow
    by (rewrite Hdf; apply raw_row_frame_of_rows; reflexivity).
  assert (raw_table df = [row_dew]) as Htab
    by (rewrite Hdf; apply raw_table_frame_of_rows).
  assert (0 < nrows df) as Hi by (rewrite Hdf; simpl; lia).
  clear Hdf.
  exists (final_frame m config (config_scalars m) df),
    (RowSem.publish m config (config_scalars m) row_dew).
  split.
  { rewrite (estimate_run m config df _ Hwf Hraw Hsc), Htab. reflexivity. }
  unfold condensation_facts in Hc. unfold evaporation_facts in He.
  apply andb_prop in Hc as [Hc _]. apply andb_prop in Hc as [Hc Hneg].
  apply andb_prop in Hc as [Hc Hdpd]. apply andb_prop in He as [He _].
  apply forallb_Forall in Hc, He.
  rewrite Forall_forall in Hc, He.
  assert (F64.is_finite (RowSem.Estimated_Leaf_Wetness m config (config_scalars m) row_dew)
          = true) as Hfw.
  { destruct Hw as [-> | ->]; [apply Hc; do 21 right; left|reflexivity]. }
  split; [vm_compute; reflexivity|].
  split; [vm_compute; reflexivity|].
  split.
  { rewrite (final_cell_last _ _ _ _ "DPD" RowSem.DPD 0 eq_refl Hi), Hrow. exact Hdpd. }
  split; [vm_compute; reflexivity|].
  split.
  { unfold derived_columns.
    repeat (apply Forall_cons; split); [..|constructor]; cbn [fst];
      (erewrite final_cell_last by (first [reflexivity | exact Hi])); rewrite Hrow;
      first [ exact Hfw | solve [apply Hc; solve_elem] | solve [apply He; solve_elem] ]. }
  split.
  { unfold record_finite.
    cbn [RowSem.publish Out.AIR_TEMP_F Out.DEWPOINT_F Out.WIND_SPEED_2M_MPH
           Out.RELATIVE_HUMIDITY Out.Potential_condensation_of_dew_mm
           Out.Estimated_Leaf_Wetness_mm].
    rewrite Hfw, (Hc (RowSem.Potential_condensation_mm m config (config_scalars m) row_dew))
      by (do 19 right; left).
    vm_compute; reflexivity. }
  split.
  { rewrite (final_cell_last _ _ _ _ "Potential condensation of dew (mm)"
               (RowSem.Potential_condensation_mm m config (config_scalars m)) 0 eq_refl Hi),
      Hrow.
    reflexivity. }
  split; [exact Hneg|].
  cbn [RowSem.publish Out.Estimated_Leaf_Wetness_mm].
  unfold RowSem.Estimated_Leaf_Wetness.
  by destruct (F64Facts.floor_at_zero
                 (RowSem.Estimated_Leaf_Wetness_unfloored m config (config_scalars m) row_dew))
    as (_ & _ & ?).
Qed.

Lemma C9_condensation_not_floored_witness :
  exists df' r,
    estimate_leaf_wetness RefLibm.libm config (frame_of_rows [row_dew]) = (df', inr [r])
    /\ (Out.Potential_condensation_of_dew_mm r <? f64 0)%F = true
    /\ (Out.Estimated_Leaf_Wetness_mm r <? f64 0)%F = false.
Proof.
  destruct (C9_condensation_not_floored RefLibm.libm (ref_row_calls row_dew))
    as (df' & r & Hrun & _ & _ & _ & _ & _ & _ & _ & Hneg & Hw).
  exists df', r. split; [exact Hrun|]. split; [exact Hneg|exact Hw].
Defined.

(** C10. On a well-formed frame a call leaves the five raw columns as they
    were, whether it returns or raises, and the four echoed fields of every
    record it returns are the cells of the input frame in that row. *)
Theorem C10_raw_fields_not_overwritten (m : Libm) (cfg : Cfg.t) (df : DataFrame) :
  frame_wf df ->
  let df' := (estimate_leaf_wetness m cfg df).1 in
  (forall k, k ∈ raw_names -> columns df' !! k = columns df !! k)
  /\ (forall out i r,
        (estimate_leaf_wetness m cfg df).2 = inr out -> out !! i = Some r ->
        Out.AIR_TEMP_F r = cell df "AIR_TEMP_F" i
        /\ Out.DEWPOINT_F r = cell df "DEWPOINT_F" i
        /\ Out.WIND_SPEED_2M_MPH r = cell df "WIND_SPEED_2M_MPH" i
        /\ Out.RELATIVE_HUMIDITY r = cell df "RELATIVE_HUMIDITY_%" i).
Proof.
  intros Hwf. cbv zeta. split.
  - by apply (estimate_keeps m cfg df Hwf).
  - intros out i r Hout Hr.
    destruct (estimate_leaf_wetness m cfg df) as [df' res] eqn:Hrun.
    simpl in Hout. subst res.
    row_of_run Hwf Hrun Hr as sc Hi. done.
Qed.

Lemma C10_raw_fields_not_overwritten_witness :
  columns (estimate_leaf_wetness RefLibm.libm config example_frame).1 !! "AIR_TEMP_F"
  = columns example_frame !! "AIR_TEMP_F".
Proof.
  pose proof (C10_raw_fields_not_overwritten RefLibm.libm config example_frame
                (frame_of_rows_wf _)) as H.
  cbv zeta in H. destruct H as [H _].
  apply H. unfold raw_names. apply list_elem_of_here.
Defined.

(** * Further properties of the estimator *)

Lemma py_div_raise x y e : py_div x y = inl e -> e = ZeroDivisionError.
Proof. unfold py_div. destruct (F64.is_zero y); [|discriminate]. by intros [= <-]. Qed.

Lemma py_pow_int_raise m x k e :
  py_pow_int m x k = inl e -> e = ZeroDivisionError \/ e = OverflowError.
Proof.
  unfold py_pow_int. destruct (k =? 0)%Z; [discriminate|].
  destruct x as [s|s| |s mx ex]; try discriminate.
  - destruct (k <? 0)%Z; [|discriminate]. intros [= <-]. by left.
  - destruct (0 <? k)%Z; discriminate.
  - cbv zeta. destruct (_ =? _)%F; [discriminate|].
    destruct (F64.is_inf _); [|discriminate]. intros [= <-]. by right.
Qed.

(** A call returns exactly when the frame has the five raw columns and the
    scalars raise nothing; it then returns one record per row. *)
Theorem returns_iff (m : Libm) (cfg : Cfg.t) (df : DataFrame) :
  frame_wf df ->
  ((exists out, (estimate_leaf_wetness m cfg df).2 = inr out)
   <-> (has_raw_columns df /\ exists sc, scalars m cfg = inr sc))
  /\ (forall out, (estimate_leaf_wetness m cfg df).2 = inr out -> length out = nrows df).
Proof.
  intros Hwf. split; [split|].
  - intros [out Hout].
    destruct (estimate_leaf_wetness m cfg df) as [df' res] eqn:Hrun. simpl in Hout. subst res.
    destruct (estimate_returns _ _ _ _ _ Hwf Hrun) as (sc & Hsc & Hraw & _).
    split; [exact Hraw|]. by exists sc.
  - intros [Hraw [sc Hsc]]. rewrite (estimate_run m cfg df sc Hwf Hraw Hsc). by eexists.
  - intros out Hout.
    destruct (estimate_leaf_wetness m cfg df) as [df' res] eqn:Hrun. simpl in Hout. subst res.
    destruct (estimate_returns _ _ _ _ _ Hwf Hrun) as (sc & _ & _ & _ & ->).
    by rewrite length_fmap, length_raw_table.
Qed.

Lemma returns_iff_witness :
  exists out, (estimate_leaf_wetness RefLibm.libm config example_frame).2 = inr out.
Proof.
  apply (proj1 (returns_iff RefLibm.libm config example_frame (frame_of_rows_wf _))).
  split; [apply frame_of_rows_has_raw|]. eexists. apply ref_config_scalars.
Defined.

(** The only exceptions a call raises on a well-formed frame are
    [ZeroDivisionError] and [OverflowError], from the scalars, and [KeyError]
    for one of the five raw columns, which the frame then lacks. *)
Theorem raises_only (m : Libm) (cfg : Cfg.t) (df : DataFrame) (e : exn) :
  frame_wf df ->
  (estimate_leaf_wetness m cfg df).2 = inl e ->
  e = ZeroDivisionError \/ e = OverflowError
  \/ exists k, k ∈ raw_names /\ e = KeyError k /\ columns df !! k = None.
Proof.
  intros Hwf. rewrite (estimate_result m cfg df Hwf). unfold outcome.
  destruct (scalars_pore m cfg) as [x|p] eqn:Ep.
  { cbn [mbind exn_bind]. intros [= <-]. apply scalars_pore_raise in Ep as [E|(d & _ & E)].
    - apply py_pow_int_raise in E as [->| ->]; [by left|by right; left].
    - apply py_div_raise in E as ->. by left. }
  cbn [mbind exn_bind]. unfold data.
  destruct (columns df !! "AIR_TEMP_F") eqn:HT.
  2:{ cbn [mbind exn_bind]. intros [= <-]. right; right. exists "AIR_TEMP_F". unfold raw_names. split; [solve_elem|done]. }
  destruct (columns df !! "DEWPOINT_F") eqn:HD.
  2:{ cbn [mbind exn_bind]. intros [= <-]. right; right. exists "DEWPOINT_F". unfold raw_names. split; [solve_elem|done]. }
  destruct (columns df !! "RELATIVE_HUMIDITY_%") eqn:HR.
  2:{ cbn [mbind exn_bind]. intros [= <-]. right; right. exists "RELATIVE_HUMIDITY_%". unfold raw_names.
      split; [solve_elem|done]. }
  destruct (columns df !! "WIND_SPEED_2M_MPH") eqn:HW.
  2:{ cbn [mbind exn_bind]. intros [= <-]. right; right. exists "WIND_SPEED_2M_MPH". unfold raw_names.
      split; [solve_elem|done]. }
  cbn [mbind exn_bind].
  destruct (scalars_wind m cfg) as [x|w] eqn:Ew.
  { cbn [mbind exn_bind]. intros [= <-].
    apply scalars_wind_raise in Ew as [E|(a & _ & [E|(b & _ & [E|(c' & _ & E)])])].
    - apply py_div_raise in E as ->. by left.
    - apply py_div_raise in E as ->. by left.
    - apply py_div_raise in E as ->. by left.
    - apply py_pow_int_raise in E as [->| ->]; [by left|by right; left]. }
  cbn [mbind exn_bind].
  destruct (columns df !! "PRECIP_INCHES") eqn:HP; [discriminate|].
  intros [= <-]. right; right. exists "PRECIP_INCHES". unfold raw_names. split; [solve_elem|done].
Qed.

Lemma raises_only_witness :
  exists k, k ∈ raw_names /\ columns frame_without_dewpoint !! k = None.
Proof.
  destruct (raises_only RefLibm.libm config frame_without_dewpoint (KeyError "DEWPOINT_F")
              frame_without_dewpoint_wf) as [H|[H|(k & Hk & _ & Hnone)]].
  - vm_compute. reflexivity.
  - discriminate H.
  - discriminate H.
  - exists k. split; [exact Hk|exact Hnone].
Defined.

(** The records, or the exception, depend on the number of rows and on the
    five raw columns only: a column the frame already has under the name of
    a derived one, or any other column, changes nothing. *)
Theorem result_depends_on_raw_columns (m : Libm) (cfg : Cfg.t) (df1 df2 : DataFrame) :
  frame_wf df1 -> frame_wf df2 ->
  nrows df1 = nrows df2 ->
  (forall k, k ∈ raw_names -> columns df1 !! k = columns df2 !! k) ->
  (estimate_leaf_wetness m cfg df1).2 = (estimate_leaf_wetness m cfg df2).2.
Proof.
  intros Hwf1 Hwf2 Hn Hk.
  rewrite (estimate_result m cfg df1 Hwf1), (estimate_result m cfg df2 Hwf2).
  by apply outcome_ext.
Qed.

(** When the stomatal resistance of line 88 raises, the call raises the same
    exception and the frame is as it was. *)
Theorem pore_error_leaves_frame (m : Libm) (cfg : Cfg.t) (df : DataFrame) (e : exn) :
  scalars_pore m cfg = inl e ->
  estimate_leaf_wetness m cfg df = (df, inl e).
Proof.
  intros Ep. unfold estimate_leaf_wetness. cbv zeta.
  apply scalars_pore_raise in Ep as [E1|(d & E1 & E2)].
  - by rewrite (bind_py_raise _ _ _ _ E1).
  - by rewrite (bind_py _ _ _ _ E1), (bind_py_raise _ _ _ _ E2).
Qed.

Lemma pore_error_leaves_frame_witness :
  estimate_leaf_wetness RefLibm.libm config_no_stomata example_frame
  = (example_frame, inl ZeroDivisionError).
Proof.
  apply pore_error_leaves_frame. vm_compute. reflexivity.
Defined.

Lemma setcol_wf k v df : frame_wf df -> length v = nrows df -> frame_wf (setcol k v df).
Proof.
  intros Hwf Hv k' col. unfold setcol. cbn [columns nrows]. rewrite lookup_insert.
  destruct (decide (k = k')); [by intros [= <-]|apply Hwf].
Qed.

Lemma result_depends_on_raw_columns_witness :
  (estimate_leaf_wetness RefLibm.libm config example_frame).2
  = (estimate_leaf_wetness RefLibm.libm config
       (setcol "DPD" [f64 1; f64 2; f64 3] example_frame)).2.
Proof.
  apply result_depends_on_raw_columns.
  - apply frame_of_rows_wf.
  - apply setcol_wf; [apply frame_of_rows_wf|reflexivity].
  - reflexivity.
  - intros k Hk. unfold setcol. cbn [columns]. rewrite lookup_insert_ne; [reflexivity|].
    intros <-. revert Hk. vm_compute. intros Hk.
    repeat (apply elem_of_cons in Hk as [Hk|Hk]; [discriminate Hk|]).
    by apply elem_of_nil in Hk.
Defined.

(** When the wind profile of line 109 raises (a reference height of zero,
    for one), the call raises the same exception after it has assigned the
    eight columns from [AIR_TEMP_C] to [Uz]: the frame of the caller holds
    them, and nothing else is changed. *)
Theorem wind_error_keeps_early_columns (m : Libm) (cfg : Cfg.t) (df : DataFrame)
    (p : F64.t * F64.t) (e : exn) :
  frame_wf df -> has_raw_columns df ->
  scalars_pore m cfg = inr p -> scalars_wind m cfg = inl e ->
  estimate_leaf_wetness m cfg df
  = (foldl (fun d '(k, g) => setcol k (g <$> raw_table df) d) df (early_columns m), inl e).
Proof.
  intros Hwf Hraw Ep Ew. destruct p as [d r].
  destruct (raw_columns_of_table df Hwf Hraw) as (HT & HD & HR & HW & HP).
  pose proof (length_raw_table df) as Hn. symmetry in Hn.
  destruct (scalars_pore_inv _ _ _ _ Ep) as [E1 E2].
  unfold early_columns. cbn [foldl].
  set (raws := raw_table df) in *.
  unfold estimate_leaf_wetness. cbv zeta.
  rewrite (bind_py _ _ _ _ E1), (bind_py _ _ _ _ E2).
  step_as raws RowSem.AIR_TEMP_C.
  step_as raws RowSem.DEWPOINT_C.
  step_as raws RowSem.DPD.
  step_as raws (RowSem.SVP m).
  step_as raws (RowSem.Slope_kPa m).
  step_as raws (RowSem.Slope_mbar m).
  step_as raws (RowSem.AVP m).
  step_as raws RowSem.Uz.
  apply scalars_wind_raise in Ew
    as [E3|(a & E3 & [E4|(b & E4 & [E5|(c' & E5 & E6)])])].
  - by rewrite (bind_py_raise _ _ _ _ E3).
  - by rewrite (bind_py _ _ _ _ E3), (bind_py_raise _ _ _ _ E4).
  - by rewrite (bind_py _ _ _ _ E3), (bind_py _ _ _ _ E4), (bind_py_raise _ _ _ _ E5).
  - by rewrite (bind_py _ _ _ _ E3), (bind_py _ _ _ _ E4), (bind_py _ _ _ _ E5),
      (bind_py_raise _ _ _ _ E6).
Qed.

Lemma wind_error_keeps_early_columns_witness :
  exists df',
    estimate_leaf_wetness RefLibm.libm config_zero_reference example_frame
    = (df', inl ZeroDivisionError)
    /\ columns df' !! "Uz" = Some (RowSem.Uz <$> raw_table example_frame)
    /\ columns df' !! "Uc" = None.
Proof.
  eexists. split.
  - eapply (wind_error_keeps_early_columns RefLibm.libm config_zero_reference example_frame).
    + apply frame_of_rows_wf.
    + apply frame_of_rows_has_raw.
    + vm_compute. reflexivity.
    + vm_compute. reflexivity.
  - split; reflexivity.
Defined.

(** ** The frame a call leaves behind *)

Lemma last_assigned_other m cfg sc k :
  k ∉ derived_names -> last_assigned (derived_columns m cfg sc) k = None.
Proof.
  intros Hk. unfold derived_columns. cbn [last_assigned].
  repeat (destruct (decide (_ = k)) as [<-|_];
          [exfalso; apply Hk; unfold derived_names; solve_elem|]).
  reflexivity.
Qed.

Lemma final_frame_nrows m cfg sc df : nrows (final_frame m cfg sc df) = nrows df.
Proof.
  unfold final_frame. generalize (raw_table df). intros tab.
  generalize (derived_columns m cfg sc). intros cols. revert df.
  induction cols as [|[k g] cols IH]; intros df; [done|]. cbn [foldl]. by rewrite IH.
Qed.

(** After a call that returns, the frame is well formed and has the rows it
    had; every column the estimator does not assign is as it was, and each
    of the 27 columns it assigns is there with one entry per row. *)
Theorem returned_frame (m : Libm) (cfg : Cfg.t) (df df' : DataFrame) (out : list Out.t) :
  frame_wf df ->
  estimate_leaf_wetness m cfg df = (df', inr out) ->
  frame_wf df' /\ nrows df' = nrows df
  /\ (forall k, k ∉ derived_names -> columns df' !! k = columns df !! k)
  /\ (forall k, k ∈ derived_names ->
        exists col, columns df' !! k = Some col /\ length col = nrows df).
Proof.
  intros Hwf Hrun.
  destruct (estimate_keeps m cfg df Hwf) as (Hwf' & Hn' & _).
  rewrite Hrun in Hwf', Hn'. cbn [fst] in Hwf', Hn'.
  split; [exact Hwf'|]. split; [exact Hn'|].
  destruct (estimate_returns _ _ _ _ _ Hwf Hrun) as (sc & _ & _ & -> & _).
  split.
  - intros k Hk. by apply final_frame_other, last_assigned_other.
  - intros k Hk. unfold derived_names in Hk.
    repeat (apply elem_of_cons in Hk as [->|Hk];
            [eexists; split;
             [unfold final_frame; rewrite foldl_setcol_lookup; reflexivity
             |by rewrite length_fmap, length_raw_table]|]).
    by apply elem_of_nil in Hk.
Qed.

Lemma returned_frame_witness :
  exists col,
    columns (final_frame RefLibm.libm config (config_scalars RefLibm.libm) example_frame)
      !! "Estimated Leaf Wetness (mm)" = Some col
    /\ length col = nrows example_frame.
Proof.
  destruct (returned_frame RefLibm.libm config example_frame _ _
              (frame_of_rows_wf _) example_run) as (_ & _ & _ & H).
  apply H. unfold derived_names. solve_elem.
Defined.

Lemma final_frame_raw_table m cfg sc df :
  raw_table (final_frame m cfg sc df) = raw_table df.
Proof.
  apply raw_table_ext; [apply final_frame_nrows|].
  intros k Hk. apply final_frame_other.
  unfold raw_names in Hk.
  repeat (apply elem_of_cons in Hk as [->|Hk]; [reflexivity|]).
  by apply elem_of_nil in Hk.
Qed.

Lemma final_frame_idem m cfg sc df :
  final_frame m cfg sc (final_frame m cfg sc df) = final_frame m cfg sc df.
Proof.
  assert (forall d1 d2 : DataFrame,
            nrows d1 = nrows d2 -> columns d1 = columns d2 -> d1 = d2) as Hext.
  { intros [n1 c1] [n2 c2]. simpl. by intros -> ->. }
  apply Hext; [by rewrite !final_frame_nrows|].
  apply map_eq. intros k.
  unfold final_frame at 1. rewrite foldl_setcol_lookup, final_frame_raw_table.
  unfold final_frame. rewrite foldl_setcol_lookup.
  by destruct (last_assigned (derived_columns m cfg sc) k).
Qed.

(** A call that returns has reached a fixed point: a second call on the
    frame it left behind returns the same records and leaves that frame as
    it is. *)
Theorem second_call_fixed_point (m : Libm) (cfg : Cfg.t) (df df' : DataFrame)
    (out : list Out.t) :
  frame_wf df ->
  estimate_leaf_wetness m cfg df = (df', inr out) ->
  estimate_leaf_wetness m cfg df' = (df', inr out).
Proof.
  intros Hwf Hrun.
  destruct (estimate_keeps m cfg df Hwf) as (Hwf' & _ & Hk').
  rewrite Hrun in Hwf', Hk'. cbn [fst] in Hwf', Hk'.
  destruct (estimate_returns _ _ _ _ _ Hwf Hrun) as (sc & Hsc & Hraw & -> & ->).
  assert (has_raw_columns (final_frame m cfg sc df)) as Hraw'.
  { unfold has_raw_columns in *. rewrite Forall_forall in Hraw. apply Forall_forall.
    intros k Hk. rewrite (Hk' k Hk). by apply Hraw. }
  rewrite (estimate_run m cfg _ sc Hwf' Hraw' Hsc).
  by rewrite final_frame_idem, final_frame_raw_table.
Qed.

Lemma second_call_fixed_point_witness :
  estimate_leaf_wetness RefLibm.libm config
    (final_frame RefLibm.libm config (config_scalars RefLibm.libm) example_frame)
  = (final_frame RefLibm.libm config (config_scalars RefLibm.libm) example_frame,
     inr (RowSem.publish RefLibm.libm config (config_scalars RefLibm.libm)
            <$> [row_mild; row_dew; row_freezing])).
Proof.
  exact (second_call_fixed_point RefLibm.libm config example_frame _ _
           (frame_of_rows_wf _) example_run).
Defined.

(** On a frame with the five raw columns and no row, a call returns the
    empty list. *)
Theorem empty_frame (m : Libm) (cfg : Cfg.t) (sc : Scalars) :
  scalars m cfg = inr sc ->
  (estimate_leaf_wetness m cfg (frame_of_rows [])).2 = inr [].
Proof.
  intros Hsc.
  rewrite (estimate_run m cfg _ sc (frame_of_rows_wf _) (frame_of_rows_has_raw _) Hsc).
  reflexivity.
Qed.

Lemma empty_frame_witness :
  (estimate_leaf_wetness RefLibm.libm config (frame_of_rows [])).2 = inr [].
Proof. exact (empty_frame RefLibm.libm config _ ref_config_scalars). Defined.

(** ** Missing values *)

Lemma nan_sub_l x y : F64.is_nan x = true -> F64.is_nan (x - y)%F = true.
Proof. destruct x; try discriminate. by destruct y. Qed.

Lemma nan_sub_r x y : F64.is_nan y = true -> F64.is_nan (x - y)%F = true.
Proof. destruct y; try discriminate. by destruct x. Qed.

Lemma nan_mul_l x y : F64.is_nan x = true -> F64.is_nan (x * y)%F = true.
Proof. destruct x; try discriminate. by destruct y. Qed.

Lemma nan_div_l x y : F64.is_nan x = true -> F64.is_nan (x / y)%F = true.
Proof. destruct x; try discriminate. by destruct y. Qed.

Lemma nan_ltb_l x y : F64.is_nan x = true -> (x <? y)%F = false.
Proof. destruct x; try discriminate. by destruct y. Qed.

Lemma nan_gtb_l x y : F64.is_nan x = true -> (x >? y)%F = false.
Proof. destruct x; try discriminate. by destruct y. Qed.

Lemma fahrenheit_nan x :
  F64.is_nan x = true -> F64.is_nan ((x - f64 32) * f64 5 / f64 9)%F = true.
Proof. intros H. by apply nan_div_l, nan_mul_l, nan_sub_l. Qed.

(** A row whose air temperature is missing is not reported as an error: its
    published condensation and its published wetness are both zero. A row
    whose dew point is missing has a published condensation of zero. *)
Theorem missing_temperature_gives_zero (m : Libm) (cfg : Cfg.t) (df df' : DataFrame)
    (out : list Out.t) (i : nat) (r : Out.t) :
  frame_wf df ->
  estimate_leaf_wetness m cfg df = (df', inr out) ->
  out !! i = Some r ->
  (F64.is_nan (cell df "AIR_TEMP_F" i) = true ->
   Out.Potential_condensation_of_dew_mm r = f64 0
   /\ Out.Estimated_Leaf_Wetness_mm r = f64 0)
  /\ (F64.is_nan (cell df "DEWPOINT_F" i) = true ->
      Out.Potential_condensation_of_dew_mm r = f64 0).
Proof.
  intros Hwf Hrun Hr. row_of_run Hwf Hrun Hr as sc Hi.
  cbn [Out.Potential_condensation_of_dew_mm Out.Estimated_Leaf_Wetness_mm RowSem.publish].
  set (raw := raw_row df i).
  assert (cell df "AIR_TEMP_F" i = Raw.AIR_TEMP_F raw) as -> by reflexivity.
  assert (cell df "DEWPOINT_F" i = Raw.DEWPOINT_F raw) as -> by reflexivity.
  split.
  - intros HT. split.
    + unfold RowSem.Potential_condensation_mm, RowSem.DPD.
      rewrite nan_ltb_l; [reflexivity|].
      apply nan_sub_l. unfold RowSem.AIR_TEMP_C. by apply fahrenheit_nan.
    + unfold RowSem.Estimated_Leaf_Wetness, RowSem.Estimated_Leaf_Wetness_unfloored.
      rewrite (nan_gtb_l _ _ HT). reflexivity.
  - intros HD. unfold RowSem.Potential_condensation_mm, RowSem.DPD.
    rewrite nan_ltb_l; [reflexivity|].
    apply nan_sub_r. unfold RowSem.DEWPOINT_C. by apply fahrenheit_nan.
Qed.

Lemma missing_rows_run :
  estimate_leaf_wetness RefLibm.libm config
    (frame_of_rows [row_missing_temp; row_missing_wind])
  = (final_frame RefLibm.libm config (config_scalars RefLibm.libm)
       (frame_of_rows [row_missing_temp; row_missing_wind]),
     inr (RowSem.publish RefLibm.libm config (config_scalars RefLibm.libm)
            <$> [row_missing_temp; row_missing_wind])).
Proof.
  rewrite (estimate_run RefLibm.libm config _ (config_scalars RefLibm.libm)
             (frame_of_rows_wf _) (frame_of_rows_has_raw _) ref_config_scalars).
  reflexivity.
Qed.

Lemma missing_temperature_gives_zero_witness :
  Out.Estimated_Leaf_Wetness_mm
    (RowSem.publish RefLibm.libm config (config_scalars RefLibm.libm) row_missing_temp)
  = f64 0.
Proof.
  destruct (missing_temperature_gives_zero RefLibm.libm config _ _ _ 0 _
              (frame_of_rows_wf _) missing_rows_run eq_refl) as [H _].
  apply H. reflexivity.
Defined.

(** The converted wind speed of every row is 0.44704 times the wind when
    the wind is above zero and 0.001 otherwise; a row whose wind speed is
    missing is treated as calm. *)
Theorem wind_speed_conversion (m : Libm) (cfg : Cfg.t) (df df' : DataFrame)
    (out : list Out.t) (i : nat) :
  frame_wf df ->
  estimate_leaf_wetness m cfg df = (df', inr out) ->
  i < nrows df ->
  let w := cell df "WIND_SPEED_2M_MPH" i in
  let v := cell df' "Wind Speed (m/s)" i in
  ((w >? f64 0)%F = true -> v = (f64 0.44704 * w)%F)
  /\ ((w >? f64 0)%F = false -> v = f64 0.001)
  /\ (F64.is_nan w = true -> v = f64 0.001)
  /\ cell df' "Reynolds Number" i
     = (v * Cfg.dimension_of_leaf_m cfg / Cfg.kinematic_viscosity_of_air cfg)%F.
Proof.
  intros Hwf Hrun Hi.
  destruct (estimate_returns _ _ _ _ _ Hwf Hrun) as (sc & _ & _ & -> & _). cbv zeta.
  rewrite (final_cell_last _ _ _ _ "Wind Speed (m/s)" RowSem.Wind_Speed_m_s i eq_refl Hi).
  rewrite (final_cell_last _ _ _ _ "Reynolds Number" (RowSem.Reynolds_Number cfg) i
             eq_refl Hi).
  set (raw := raw_row df i).
  assert (cell df "WIND_SPEED_2M_MPH" i = Raw.WIND_SPEED_2M_MPH raw) as -> by reflexivity.
  unfold RowSem.Reynolds_Number, RowSem.Wind_Speed_m_s.
  split; [by intros ->|]. split; [by intros ->|]. split; [|reflexivity].
  intros Hn. by rewrite (nan_gtb_l _ _ Hn).
Qed.

Lemma wind_speed_conversion_witness :
  cell (final_frame RefLibm.libm config (config_scalars RefLibm.libm)
          (frame_of_rows [row_missing_temp; row_missing_wind])) "Wind Speed (m/s)" 1
  = f64 0.001.
Proof.
  pose proof (wind_speed_conversion RefLibm.libm config _ _ _ 1
                (frame_of_rows_wf _) missing_rows_run (le_n 2)) as H.
  cbv zeta in H. destruct H as (_ & _ & H & _).
  apply H. reflexivity.
Defined.

(** ** The constants of the program *)


Lemma result_by_first_missing m cfg df sc :
  frame_wf df -> scalars m cfg = inr sc ->
  (estimate_leaf_wetness m cfg df).2
  = match first_missing df with
    | Some k => inl (KeyError k)
    | None => inr (RowSem.publish m cfg sc <$> raw_table df)
    end.
Proof.
  intros Hwf Hsc.
  rewrite (estimate_result m cfg df Hwf). unfold outcome.
  destruct (scalars_parts _ _ _ Hsc) as [-> ->]. cbn [mbind exn_bind].
  unfold first_missing, raw_names, data. simpl.
  case_bool_decide as HT; [by rewrite HT|].
  destruct (columns df !! "AIR_TEMP_F"); [|done]. cbn [mbind exn_bind].
  case_bool_decide as HD; [by rewrite HD|].
  destruct (columns df !! "DEWPOINT_F"); [|done]. cbn [mbind exn_bind].
  case_bool_decide as HR; [by rewrite HR|].
  destruct (columns df !! "RELATIVE_HUMIDITY_%"); [|done]. cbn [mbind exn_bind].
  case_bool_decide as HW; [by rewrite HW|].
  destruct (columns df !! "WIND_SPEED_2M_MPH"); [|done]. cbn [mbind exn_bind].
  case_bool_decide as HP; [by rewrite HP|].
  destruct (columns df !! "PRECIP_INCHES"); [|done]. cbn [mbind exn_bind].
  by destruct sc.
Qed.

(** With the constants [config] of the program and a library that is
    accurate at the two scalar powers, the scalars raise nothing: the only
    exception a call raises is [KeyError], for the first raw column the
    frame lacks, and a frame that has the five raw columns always gets its
    records. *)
Theorem builtin_constants_raise_key_error_only (m : Libm) (df : DataFrame) :
  frame_wf df ->
  scalar_calls_accurate m ->
  (forall e, (estimate_leaf_wetness m config df).2 = inl e ->
     exists k, first_missing df = Some k /\ e = KeyError k /\ columns df !! k = None)
  /\ (has_raw_columns df ->
      (estimate_leaf_wetness m config df).2
      = inr (RowSem.publish m config (config_scalars m) <$> raw_table df)).
Proof.
  intros Hwf Hacc. pose proof (config_scalars_ok m Hacc) as Hsc. split.
  - intros e He.
    rewrite (result_by_first_missing m config df _ Hwf Hsc) in He.
    pose proof (data_first_missing df) as Hm.
    destruct (first_missing df) as [k|]; [|discriminate].
    injection He as <-. exists k. split; [reflexivity|]. split; [reflexivity|apply Hm].
  - intros Hraw. by rewrite (estimate_run m config df _ Hwf Hraw Hsc).
Qed.

Lemma builtin_constants_raise_key_error_only_witness :
  exists k, first_missing frame_without_dewpoint = Some k
            /\ columns frame_without_dewpoint !! k = None.
Proof.
  destruct (builtin_constants_raise_key_error_only RefLibm.libm frame_without_dewpoint
              frame_without_dewpoint_wf ref_scalar_calls) as [H _].
  destruct (H (KeyError "DEWPOINT_F")) as (k & Hk & _ & Hnone).
  - vm_compute. reflexivity.
  - exists k. split; [exact Hk|exact Hnone].
Defined.
